(** * quantum-core: provider adapters, job ledger and proxy health

  A shallow embedding of
    - [src/proxy.core/proxies/alphavantage/alphavantage.service.ts]
      (class [AlphaVantageService]) and
    - [src/proxy.core/proxies/proxy/data.proxy.interface.ts]
      (enum [ProxyStatus], interface [ProxyAPIStats]).

  Asynchronous methods are functions in a small monad [Async] that threads
  the job ledger, collects the effects of a call in order and either
  returns a value or throws.  Promises handed back by collaborators are
  values of [Settled]: fulfilled with a result or rejected with a reason.
  A ledger update that is called without await is kept in flight: it
  reaches the store before or after the read-back that follows, as the
  ledger the run starts from has it. *)

From Stdlib Require Import ZArith QArith Ascii String List Lia Lqa.
From stdpp Require Import base gmap strings list pretty.

Open Scope string_scope.
Open Scope Z_scope.

(** ** [HttpStatus], the three codes the service uses *)
Module HttpStatus.
Definition OK : Z := 200.
Definition BAD_REQUEST : Z := 400.
Definition INTERNAL_SERVER_ERROR : Z := 500.
End HttpStatus.

(** ** Thrown values

  [Error m] is [new Error(m)], [HttpException r s] is
  [new HttpException(r, s)] with a string response, [TypeError m] is the
  error the engine raises for a call on a value that has no such method.
  A promise may be rejected with any value at all.  [Undefined] and [Null]
  have no [toString].  [Opaque f] is any other value on which the test
  [e.toString().startsWith(...)] itself throws [f]: an object without
  [toString], or one whose [toString] throws or returns no string.
  [Foreign t] is every value that is left: one whose [toString()] returns
  the string [t], each time it is called. *)
Inductive Thrown : Type :=
| Error (message : string)
| HttpException (response : string) (status : Z)
| TypeError (message : string)
| Undefined
| Null
| Opaque (failure : Thrown)
| Foreign (text : string).

(** What the service runs on and cannot be read off its source: the text
    the installed version of the framework prints for an HttpException with
    a string response (its class name and the message from version 8 on,
    the name Error and the message in version 7), the messages of the
    TypeErrors the engine raises for [undefined.toString()] and
    [null.toString()], and the error of the ledger for a job id it does not
    find. *)
Class Runtime : Type := {
  httpExceptionText : string -> string;
  undefinedMessage : string;
  nullMessage : string;
  ledgerInconsistency : option Z -> Thrown
}.

(** [Error.prototype.toString]: the name alone for an empty message,
    otherwise name, colon, blank, message. *)
Definition named (name message : string) : string :=
  if decide (message = "") then name else name ++ ": " ++ message.

(** The text [e.toString()] returns.  [Undefined], [Null] and the
    [Opaque] values have none: on them the call throws, see [callToString]
    below, and the text given here (that of [String(e)], or none) is never
    used by the service. *)
Definition toString `{RT : Runtime} (e : Thrown) : string :=
  match e with
  | Error m => named "Error" m
  | HttpException r _ => httpExceptionText r
  | TypeError m => named "TypeError" m
  | Undefined => "undefined"
  | Null => "null"
  | Opaque _ => ""
  | Foreign t => t
  end.

(** Whether [e.toString()] returns a text. *)
Definition hasToString (e : Thrown) : bool :=
  match e with
  | Undefined | Null | Opaque _ => false
  | _ => true
  end.

(** [s.startsWith(p)] *)
Definition startsWith (s p : string) : bool := String.prefix p s.

Inductive Settled (A : Type) : Type :=
| Fulfilled (value : A)
| Rejected (reason : Thrown).
Arguments Fulfilled {A} value.
Arguments Rejected {A} reason.

(** A promise that is fulfilled, or rejected with a value that has a
    [toString]. *)
Definition answers {A : Type} (p : Settled A) : Prop :=
  match p with
  | Fulfilled _ => True
  | Rejected e => hasToString e = true
  end.

Inductive Outcome (A : Type) : Type :=
| Return (a : A)
| Throw (e : Thrown).
Arguments Return {A} a.
Arguments Throw {A} e.

(** ** Numbers in template literals

  [`${n}`] for a number [n] whose value is an integer: the shortest decimal
  that reads back as the same number, written in full below 10^21 and with
  an exponent from there on.  Up to 2^53 every integer is the value of a
  number and the text is the integer itself; beyond, the numbers are the
  multiples of their spacing [2 ^ (log2 n - 52)], and the functions below
  are meant for those. *)

Fixpoint dropZeros (s : list ascii) : list ascii :=
  match s with
  | "0"%char :: s' => dropZeros s'
  | _ => s
  end.

(** The digits of a decimal without its trailing zeros. *)
Definition significant (s : string) : string :=
  string_of_list_ascii (rev (dropZeros (rev (list_ascii_of_string s)))).

(** Whether the integer [v] lies in the rounding interval of the number
    [x]: between the midpoints to the neighbours of [x], the midpoints
    included when the mantissa of [x] is even. *)
Definition readsBackAs (x v : Z) : bool :=
  let ulp := 2 ^ (Z.log2 x - 52) in
  let below := if x =? 2 ^ Z.log2 x then ulp / 2 else ulp in
  if Z.even (x / ulp)
  then (2 * x - below <=? 2 * v) && (2 * v <=? 2 * x + ulp)
  else (2 * x - below <? 2 * v) && (2 * v <? 2 * x + ulp).

(** [x] cut to [k] significant digits, down or up, where that reads back as
    [x]; the nearer one, or the even one, where both do. *)
Definition roundedTo (x : Z) (k : Z) : option Z :=
  let scale := 10 ^ (Z.of_nat (String.length (pretty x)) - k) in
  let v1 := x / scale * scale in
  let v2 := v1 + scale in
  match readsBackAs x v1, readsBackAs x v2 with
  | true, true =>
      Some (if x - v1 <? v2 - x then v1
            else if v2 - x <? x - v1 then v2
            else if Z.even (v1 / scale) then v1 else v2)
  | true, false => Some v1
  | false, true => Some v2
  | false, false => None
  end.

(** The decimal with the fewest significant digits that reads back as [x]
    (seventeen always do). *)
Definition shortest (x : Z) : Z :=
  hd x (omap (roundedTo x) (map Z.of_nat (seq 1 17))).

Definition exponential (v : Z) : string :=
  let ds := pretty v in
  let ex := pretty (Z.of_nat (String.length ds) - 1) in
  match significant ds with
  | String d "" => String d ("e+" ++ ex)
  | String d rest => String d ("." ++ rest ++ "e+" ++ ex)
  | "" => ds
  end.

Definition numberToString (n : Z) : string :=
  let text := if Z.abs n <? 10 ^ 21 then pretty (shortest (Z.abs n))
              else exponential (shortest (Z.abs n)) in
  if n <? 0 then "-" ++ text else text.

(** ** The job ledger *)

(** Modelled from the spec: the entity [ProxyJobLog] is not part of the
  sources at hand; the fields are those of the spec's JobLogEntry. *)
Record ProxyJobLog : Type := {
  id : Z;
  provider_name : string;
  url : string;
  status_code : Z;
  message : string;
  created_at : Z
}.

Module Ledger.
(** Modelled from the spec: [ProxyJobLogService] is not part of the
    sources at hand.  [finalize] is the single update in place of the row
    of a job.  An update that names no row, or a row that does not exist,
    changes nothing: the service does not await the update, so a failure
    of it reaches nobody. *)
Definition finalize (jobId : option Z) (name url : string) (status : Z)
    (msg : string) (rows : gmap Z ProxyJobLog) : gmap Z ProxyJobLog :=
  match jobId with
  | Some j =>
      alter (fun row => {| id := id row; provider_name := name; url := url;
                           status_code := status; message := msg;
                           created_at := created_at row |}) j rows
  | None => rows
  end.

Definition lookup (jobId : option Z) (rows : gmap Z ProxyJobLog)
    : option ProxyJobLog :=
  match jobId with
  | Some j => rows !! j
  | None => None
  end.

(** Modelled from the spec: [find] reads a row back; a job id that is not
    found is the fatal LedgerInconsistency of section 7. *)
Definition find `{RT : Runtime} (jobId : option Z) (rows : gmap Z ProxyJobLog)
    : Outcome ProxyJobLog :=
  match lookup jobId rows with
  | Some row => Return row
  | None => Throw (ledgerInconsistency jobId)
  end.

(** An update as it is handed to the ledger: job id, provider, URL, status
    and message. *)
Definition write (u : option Z * string * string * Z * string)
    (rows : gmap Z ProxyJobLog) : gmap Z ProxyJobLog :=
  let '(jobId, name, link, status, msg) := u in
  finalize jobId name link status msg rows.
End Ledger.

(** The ledger as a run meets it: the rows in the store, the updates that
    were called without await and have not reached the store yet, in the
    order of the calls, and whether the updates in flight reach the store
    before the next awaited read or after it (together: a run of the
    service hands over one at most).  Nothing in the source orders the
    two. *)
Record World : Type := {
  stored : gmap Z ProxyJobLog;
  inFlight : list (option Z * string * string * Z * string);
  landsFirst : bool
}.

(** The rows once every update in flight has landed. *)
Definition settled (w : World) : gmap Z ProxyJobLog :=
  foldl (fun rows u => Ledger.write u rows) (stored w) (inFlight w).

(** The updates in flight land. *)
Definition land (w : World) : World :=
  {| stored := settled w; inFlight := []; landsFirst := landsFirst w |}.

(** An update is handed over, not awaited. *)
Definition handOver (u : option Z * string * string * Z * string) (w : World)
    : World :=
  {| stored := stored w; inFlight := inFlight w ++ [u];
     landsFirst := landsFirst w |}.

(** What an awaited read finds in place. *)
Definition atRead (w : World) : World :=
  if landsFirst w then land w else w.

(** Nothing stored, nothing in flight. *)
Global Instance world_empty : Empty World :=
  {| stored := ∅; inFlight := []; landsFirst := true |}.

(** ** Proxy health (data.proxy.interface.ts) *)
Module Health.

Inductive ProxyStatus : Type :=
| Sunny | Cloudy | Raining | ThunderStorm | Eclipse | Unknown.

(** The string values of the enum. *)
Definition value (s : ProxyStatus) : string :=
  match s with
  | Sunny => "sunny"
  | Cloudy => "cloudy"
  | Raining => "raining"
  | ThunderStorm => "thunderstorm"
  | Eclipse => "eclipse"
  | Unknown => "unknown"
  end.

Record ProxyAPIStats : Type := {
  status : ProxyStatus;
  api_hit_rate : option Q
}.

Definition Qlt_bool (x y : Q) : bool := negb (Qle_bool y x).

(** The band of each status, in the words of the spec (section 4.1):
    Sunny is exactly 1, Cloudy is [0.75, 1), Raining is [0.25, 0.75),
    ThunderStorm is [0.01, 0.25), Eclipse is everything below 0.01.
    No rate lies in the band of Unknown. *)
Definition band (s : ProxyStatus) (h : Q) : Prop :=
  match s with
  | Sunny => (h == 1)%Q
  | Cloudy => (3 # 4 <= h)%Q /\ (h < 1)%Q
  | Raining => (1 # 4 <= h)%Q /\ (h < 3 # 4)%Q
  | ThunderStorm => (1 # 100 <= h)%Q /\ (h < 1 # 4)%Q
  | Eclipse => (h < 1 # 100)%Q
  | Unknown => False
  end.

(** Modelled from the spec: the classifier lives in [DataProxyService],
    which is not part of the sources at hand; the enum's doc comment gives
    the same bands in per cent.  The cases are those of section 4.1, in
    its order.  A rate above 1 is outside the domain and matches no case;
    it is left Unknown. *)
Definition classify (hit_rate : option Q) : ProxyStatus :=
  match hit_rate with
  | None => Unknown
  | Some h =>
      if Qeq_bool h 1 then Sunny
      else if Qle_bool (3 # 4) h && Qlt_bool h 1 then Cloudy
      else if Qle_bool (1 # 4) h && Qlt_bool h (3 # 4) then Raining
      else if Qle_bool (1 # 100) h && Qlt_bool h (1 # 4) then ThunderStorm
      else if Qlt_bool h (1 # 100) then Eclipse
      else Unknown
  end.

(** A ledger row counts as a success when it was finalized with
    [HttpStatus.OK], the code the service writes after a fetch that
    worked. *)
Definition succeeded (row : ProxyJobLog) : bool :=
  status_code row =? HttpStatus.OK.

(** Modelled from the spec: the hit rate is the fraction of the recent
    ledger rows of a provider that succeeded, and is undefined when there
    are none. *)
Definition hit_rate (recent : list ProxyJobLog) : option Q :=
  match recent with
  | [] => None
  | _ :: _ =>
      Some (Z.of_nat (length (filter (fun r => succeeded r = true) recent))
            # Pos.of_nat (length recent))
  end.

(** Modelled from the spec: [get_stats] applies the classifier to the
    hit rate of the recent rows. *)
Definition fetchAPIStats (recent : list ProxyJobLog) : ProxyAPIStats :=
  {| status := classify (hit_rate recent); api_hit_rate := hit_rate recent |}.

End Health.

(** ** Requests, capabilities, results *)

(** [StockDataRetrievalJobDto]: the fields the service reads.  An interval
    is a number ([const interval: number = ... .interval]) that counts
    minutes: its values here are the integers. *)
Record StockDataRetrievalJobDto : Type := {
  symbol : string;
  exchange : string;
  interval : Z
}.

(** [IDataProxyConfig]: the two capability lists the service consults, each
    possibly undefined (they are read through [?.]).  The output format and
    size preferences are used by the constructor only. *)
Record IDataProxyConfig : Type := {
  openExchanges : option (list string);
  intraDayIntervals : option (list Z)
}.

(** [xs?.includes(x)]: undefined, hence falsy, when [xs] is undefined. *)
Definition includes {A : Type} `{EqDecision A}
    (xs : option (list A)) (x : A) : bool :=
  match xs with
  | Some l => bool_decide (x ∈ l)
  | None => false
  end.

(** [new StockDataRetrievalJobResponseDto(proxyJobLog)] wraps what
    [findProxyJobLogById] gave back. *)
Record StockDataRetrievalJobResponseDto : Type := {
  proxyJobLog : ProxyJobLog
}.

(** The capability descriptor in the words of the spec (section 3), with
    its daily-support flag, and the admissibility test of section 8.  The
    service is handed the two lists of it, see [config_of]. *)
Record CapabilityDescriptor : Type := {
  exchanges : list string;
  intraday_intervals : list Z;
  daily_supported : bool
}.

Definition is_admissible (ONE_DAY : Z) (r : StockDataRetrievalJobDto)
    (d : CapabilityDescriptor) : bool :=
  ((interval r =? ONE_DAY) && daily_supported d
   || bool_decide (interval r ∈ intraday_intervals d))
  && bool_decide (exchange r ∈ exchanges d).

Definition config_of (d : CapabilityDescriptor) : IDataProxyConfig :=
  {| openExchanges := Some (exchanges d);
     intraDayIntervals := Some (intraday_intervals d) |}.

(** ** Effects and the [Async] monad *)

Inductive Path : Type := Daily | IntraDay.
Inductive Level : Type := LOG | WARN | ERROR.

Section Service.

(** What the service imports from files that are not at hand: the bar
    type, the result types of the two converters, the converters, the value
    of [IntervalEnum.ONE_DAY] and the report of a health check.  The calls
    into those files are taken to come back: the converters and the URL
    builders of the client with a value for every argument, the logger with
    nothing, the fetches, the save and the ledger calls with a promise, a
    fetch that is fulfilled with an array of bars, as its type says. *)
Context {StockDataBar AvExchange AvInterval HealthReport : Type}.
Context `{RT : Runtime}.
Variable ONE_DAY : Z.
Variable alphaVantageExchange : string -> AvExchange.
Variable alphaVantageInterval : Z -> AvInterval.

(** What a call does to the outside, in the order it happens.  [Entered] is
    the opening log line of a method, which prints the request and the job
    id; [Logged] is any other log line, with the error handed to the logger
    if there is one.  [LedgerUpdate] is the call that hands an update to
    the ledger.  [Later ev] is an effect of a promise chain that was
    started here and not awaited: it happens at some time after this
    point. *)
Inductive Effect : Type :=
| Entered (method : string) (dto : StockDataRetrievalJobDto) (jobId : option Z)
| Logged (level : Level) (text : string) (detail : option Thrown)
| Fetched (path : Path) (sym : string) (ex : AvExchange) (iv : AvInterval)
| Saved (sym ex : string) (iv : Z) (data : list StockDataBar)
| LedgerUpdate (jobId : option Z) (name link : string) (status : Z)
    (msg : string)
| LedgerFind (jobId : option Z)
| Later (ev : Effect).

Definition Async (A : Type) : Type :=
  World -> Outcome A * World * list Effect.

Definition ret {A} (a : A) : Async A := fun rows => (Return a, rows, []).

Definition throw {A} (e : Thrown) : Async A := fun rows => (Throw e, rows, []).

Definition bind {A B} (m : Async A) (k : A -> Async B) : Async B :=
  fun rows =>
    match m rows with
    | (Return a, rows1, t1) =>
        let '(o, rows2, t2) := k a rows1 in (o, rows2, (t1 ++ t2)%list)
    | (Throw e, rows1, t1) => (Throw e, rows1, t1)
    end.

(** [p.catch(h)] *)
Definition catch {A} (m : Async A) (h : Thrown -> Async A) : Async A :=
  fun rows =>
    match m rows with
    | (Return a, rows1, t1) => (Return a, rows1, t1)
    | (Throw e, rows1, t1) =>
        let '(o, rows2, t2) := h e rows1 in (o, rows2, (t1 ++ t2)%list)
    end.

Definition emit (ev : Effect) : Async unit := fun rows => (Return tt, rows, [ev]).

(** [await p] *)
Definition await {A} (p : Settled A) : Async A :=
  match p with
  | Fulfilled a => ret a
  | Rejected e => throw e
  end.

(** A promise chain that is started and not awaited: its effects happen
    later, its result and its failure are dropped. *)
Definition detached {A} (m : Async A) : Async unit :=
  fun rows => let '(_, rows1, t1) := m rows in (Return tt, rows1, map Later t1).

Notation "x <- m ;; k" := (bind m (fun x => k))
  (at level 100, m at next level, right associativity).
Notation "m ;;; k" := (bind m (fun _ => k))
  (at level 100, right associativity).

(** [Logger.log(text)], [Logger.warn(text, error)] and the like. *)
Definition log (level : Level) (text : string) (detail : option Thrown)
    : Async unit :=
  emit (Logged level text detail).

(** The first line of each method:
    [Logger.log(`AlphaVantageService : m: stockDataRetrievalJobDto=... jobId=...`)]. *)
Definition logEntry (method : string) (dto : StockDataRetrievalJobDto)
    (jobId : option Z) : Async unit :=
  emit (Entered method dto jobId).

(** [error.toString()] as the handler calls it: the text of the value, the
    TypeError of the engine when the value is undefined or null, and the
    failure of the call for an [Opaque] value. *)
Definition callToString (error : Thrown) : Async string :=
  match error with
  | Undefined => throw (TypeError undefinedMessage)
  | Null => throw (TypeError nullMessage)
  | Opaque failure => throw failure
  | _ => ret (toString error)
  end.

(** [proxyJobLogService.updateProxyJobLog(...)], called without await: the
    update is handed to the ledger and is in flight from here on. *)
Definition updateProxyJobLog (jobId : option Z) (name link : string)
    (status : Z) (msg : string) : Async unit :=
  fun rows =>
    (Return tt, handOver (jobId, name, link, status, msg) rows,
     [LedgerUpdate jobId name link status msg]).

(** [await proxyJobLogService.findProxyJobLogById(jobId)]: reads the store
    as it is when the read arrives. *)
Definition findProxyJobLogById (jobId : option Z) : Async ProxyJobLog :=
  fun rows =>
    (Ledger.find jobId (stored (atRead rows)), atRead rows, [LedgerFind jobId]).

(** [IAlphavantageAPI]: the client of the external source.  Each request
    settles one way or the other. *)
Record IAlphavantageAPI : Type := {
  getHealth : Settled HealthReport;
  getDailyDataUrl : string -> AvExchange -> AvInterval -> string;
  getIntraDayDataUrl : string -> AvExchange -> AvInterval -> string;
  getDailyData : string -> AvExchange -> AvInterval -> Settled (list StockDataBar);
  getIntraDayData : string -> AvExchange -> AvInterval -> Settled (list StockDataBar)
}.

(** The fields of [this] the methods read.  [saveStockDataToDb] is
    inherited from [DataProxyService] and talks to the bar store. *)
Record AlphaVantageService : Type := {
  _alphaVantageAPI : IAlphavantageAPI;
  ALPHA_PROXY_CONFIG : IDataProxyConfig;
  saveStockDataToDb : string -> string -> Z -> list StockDataBar -> Settled unit
}.

(** [this.PROXY_NAME], set by the constructor. *)
Definition PROXY_NAME : string := "AlphaVantage".

Variable this : AlphaVantageService.

Definition pingProxyHealth : Async HealthReport :=
  await (getHealth (_alphaVantageAPI this)).

Definition retrieveIntraDayData (dto : StockDataRetrievalJobDto)
    (jobId : option Z) : Async StockDataRetrievalJobResponseDto :=
  logEntry "retrieveIntraDayData" dto jobId ;;;
  let iv := interval dto in
  let link := getIntraDayDataUrl (_alphaVantageAPI this) (symbol dto)
                (alphaVantageExchange (exchange dto)) (alphaVantageInterval iv) in
  catch
    (emit (Fetched IntraDay (symbol dto) (alphaVantageExchange (exchange dto))
             (alphaVantageInterval iv)) ;;;
     data <- await (getIntraDayData (_alphaVantageAPI this) (symbol dto)
                      (alphaVantageExchange (exchange dto)) (alphaVantageInterval iv)) ;;
     log LOG "AlphaVantageService : retrieveIntraDayData: success" None ;;;
     emit (Saved (symbol dto) (exchange dto) iv data) ;;;
     detached
       (catch
          (await (saveStockDataToDb this (symbol dto) (exchange dto) iv data) ;;;
           log LOG "AlphaVantageService : saveIntraDayDataToDb: success" None)
          (fun error =>
             log LOG "AlphaVantageService : saveIntraDayDataToDb: failed" (Some error))) ;;;
     updateProxyJobLog jobId PROXY_NAME link HttpStatus.OK
       ("DataSize=" ++ pretty (length data)))
    (fun error =>
       text <- callToString error ;;
       if startsWith text "Error:" then
         log WARN "AlphaVantageService : retrieveIntraDayData: error" (Some error) ;;;
         updateProxyJobLog jobId PROXY_NAME link HttpStatus.BAD_REQUEST
           (toString error) ;;;
         throw (HttpException (toString error) HttpStatus.BAD_REQUEST)
       else
         log ERROR "AlphaVantageService : retrieveIntraDayData: error" (Some error) ;;;
         updateProxyJobLog jobId PROXY_NAME link HttpStatus.INTERNAL_SERVER_ERROR
           (toString error) ;;;
         throw (HttpException (toString error) HttpStatus.INTERNAL_SERVER_ERROR)) ;;;
  row <- findProxyJobLogById jobId ;;
  ret {| proxyJobLog := row |}.

Definition retrieveDailyData (dto : StockDataRetrievalJobDto)
    (jobId : option Z) : Async StockDataRetrievalJobResponseDto :=
  logEntry "retrieveDailyData" dto jobId ;;;
  let iv := interval dto in
  let link := getDailyDataUrl (_alphaVantageAPI this) (symbol dto)
                (alphaVantageExchange (exchange dto)) (alphaVantageInterval iv) in
  catch
    (emit (Fetched Daily (symbol dto) (alphaVantageExchange (exchange dto))
             (alphaVantageInterval iv)) ;;;
     data <- await (getDailyData (_alphaVantageAPI this) (symbol dto)
                      (alphaVantageExchange (exchange dto)) (alphaVantageInterval iv)) ;;
     log LOG "AlphaVantageService : retrieveDailyData: success" None ;;;
     emit (Saved (symbol dto) (exchange dto) iv data) ;;;
     detached
       (catch
          (await (saveStockDataToDb this (symbol dto) (exchange dto) iv data) ;;;
           log LOG "AlphaVantageService : saveDailyDataToDb: success" None)
          (fun error =>
             log LOG "AlphaVantageService : saveDailyDataToDb: failed" (Some error))) ;;;
     updateProxyJobLog jobId PROXY_NAME link HttpStatus.OK
       ("DataSize=" ++ pretty (length data)))
    (fun error =>
       text <- callToString error ;;
       if startsWith text "Error:" then
         log WARN "AlphaVantageService : retrieveDailyData: error" (Some error) ;;;
         updateProxyJobLog jobId PROXY_NAME link HttpStatus.BAD_REQUEST
           (toString error) ;;;
         throw (HttpException (toString error) HttpStatus.BAD_REQUEST)
       else
         log ERROR "AlphaVantageService : retrieveDailyData: error" (Some error) ;;;
         updateProxyJobLog jobId PROXY_NAME link HttpStatus.INTERNAL_SERVER_ERROR
           (toString error) ;;;
         throw (HttpException (toString error) HttpStatus.INTERNAL_SERVER_ERROR)) ;;;
  row <- findProxyJobLogById jobId ;;
  ret {| proxyJobLog := row |}.

Definition retrieveStockData (dto : StockDataRetrievalJobDto)
    (jobId : option Z) : Async StockDataRetrievalJobResponseDto :=
  logEntry "retrieveStockData" dto jobId ;;;
  if includes (openExchanges (ALPHA_PROXY_CONFIG this)) (exchange dto) then
    if interval dto =? ONE_DAY then
      retrieveDailyData dto jobId
    else if includes (intraDayIntervals (ALPHA_PROXY_CONFIG this)) (interval dto) then
      retrieveIntraDayData dto jobId
    else
      throw (Error ("AlphaVantageService : retrieveStockData : Invalid interval='"
                    ++ numberToString (interval dto) ++ "'"))
  else
    throw (Error ("AlphaVantageService : retrieveStockData : Invalid exchange='"
                  ++ exchange dto ++ "'")).

End Service.

Arguments Effect : clear implicits.
Arguments Async : clear implicits.
Arguments IAlphavantageAPI : clear implicits.
Arguments AlphaVantageService : clear implicits.

(** ** Reading a run

    A run of a method from a ledger gives an outcome, the ledger afterwards
    and the effects in order. *)
Section Observations.

Context {StockDataBar AvExchange AvInterval A : Type}.
Implicit Types (run : Outcome A * World
                      * list (Effect StockDataBar AvExchange AvInterval))
               (t : list (Effect StockDataBar AvExchange AvInterval)).

Definition outcome run : Outcome A := run.1.1.
Definition ledgerAfter run : World := run.1.2.
Definition effects run : list (Effect StockDataBar AvExchange AvInterval) := run.2.

(** The fetch paths entered, the ledger updates made, the rows read back
    and the saves started, each in order.  Effects under [Later] are not
    counted: the one chain this service leaves unawaited only logs. *)
Fixpoint fetches t : list Path :=
  match t with
  | [] => []
  | Fetched p _ _ _ :: t' => p :: fetches t'
  | _ :: t' => fetches t'
  end.

Fixpoint ledgerUpdates t : list (option Z * string * string * Z * string) :=
  match t with
  | [] => []
  | LedgerUpdate j n u s m :: t' => (j, n, u, s, m) :: ledgerUpdates t'
  | _ :: t' => ledgerUpdates t'
  end.

Fixpoint ledgerFinds t : list (option Z) :=
  match t with
  | [] => []
  | LedgerFind j :: t' => j :: ledgerFinds t'
  | _ :: t' => ledgerFinds t'
  end.

Fixpoint saves t : list (string * string * Z * list StockDataBar) :=
  match t with
  | [] => []
  | Saved s e i d :: t' => (s, e, i, d) :: saves t'
  | _ :: t' => saves t'
  end.

(** A run that follows the opening log line of [retrieveStockData]. *)
Definition afterEntry (dto : StockDataRetrievalJobDto) (jobId : option Z) run
    : Outcome A * World * list (Effect StockDataBar AvExchange AvInterval) :=
  (run.1.1, run.1.2, Entered "retrieveStockData" dto jobId :: run.2).

(** A request is accepted when the run enters a fetch path. *)
Definition accepted run : Prop := exists p, fetches (effects run) = [p].

End Observations.

(** The status the error handler of the retrieval methods picks for a value
    that has a text. *)
Definition statusFor `{RT : Runtime} (error : Thrown) : Z :=
  if startsWith (toString error) "Error:"
  then HttpStatus.BAD_REQUEST else HttpStatus.INTERNAL_SERVER_ERROR.

Definition is4xx (s : Z) : Prop := 400 <= s < 500.
Definition is5xx (s : Z) : Prop := 500 <= s < 600.

(** The exchanges and intraday intervals a configuration supports. *)
Definition supportedExchanges (c : IDataProxyConfig) : list string :=
  default [] (openExchanges c).
Definition supportedIntraDay (c : IDataProxyConfig) : list Z :=
  default [] (intraDayIntervals c).

(** The URL and the fetch of each path for a request, as the retrieval
    methods compute them, and the service with another bar-store save. *)
Section Requests.

Context {StockDataBar AvExchange AvInterval HealthReport : Type}.
Context `{RT : Runtime}.
Variable alphaVantageExchange : string -> AvExchange.
Variable alphaVantageInterval : Z -> AvInterval.
Variable this : AlphaVantageService StockDataBar AvExchange AvInterval HealthReport.

Definition urlOf (p : Path) (dto : StockDataRetrievalJobDto) : string :=
  match p with
  | Daily => getDailyDataUrl (_alphaVantageAPI this)
  | IntraDay => getIntraDayDataUrl (_alphaVantageAPI this)
  end (symbol dto) (alphaVantageExchange (exchange dto))
      (alphaVantageInterval (interval dto)).

Definition fetchOf (p : Path) (dto : StockDataRetrievalJobDto)
    : Settled (list StockDataBar) :=
  match p with
  | Daily => getDailyData (_alphaVantageAPI this)
  | IntraDay => getIntraDayData (_alphaVantageAPI this)
  end (symbol dto) (alphaVantageExchange (exchange dto))
      (alphaVantageInterval (interval dto)).

Definition retrieveOn (p : Path) :=
  match p with
  | Daily => retrieveDailyData alphaVantageExchange alphaVantageInterval this
  | IntraDay => retrieveIntraDayData alphaVantageExchange alphaVantageInterval this
  end.

Definition withSave
    (save : string -> string -> Z -> list StockDataBar -> Settled unit)
    : AlphaVantageService StockDataBar AvExchange AvInterval HealthReport :=
  {| _alphaVantageAPI := _alphaVantageAPI this;
     ALPHA_PROXY_CONFIG := ALPHA_PROXY_CONFIG this;
     saveStockDataToDb := save |}.

End Requests.

(** The name of the method of a path, as its log lines spell it. *)
Definition pathName (p : Path) : string :=
  match p with
  | Daily => "retrieveDailyData"
  | IntraDay => "retrieveIntraDayData"
  end.

Definition saveName (p : Path) : string :=
  match p with
  | Daily => "saveDailyDataToDb"
  | IntraDay => "saveIntraDayDataToDb"
  end.

(** A request with another interval. *)
Definition withInterval (dto : StockDataRetrievalJobDto) (iv : Z)
    : StockDataRetrievalJobDto :=
  {| symbol := symbol dto; exchange := exchange dto; interval := iv |}.

(** The two errors of [retrieveStockData]. *)
Definition invalidExchange (dto : StockDataRetrievalJobDto) : Thrown :=
  Error ("AlphaVantageService : retrieveStockData : Invalid exchange='"
         ++ exchange dto ++ "'").
Definition invalidInterval (dto : StockDataRetrievalJobDto) : Thrown :=
  Error ("AlphaVantageService : retrieveStockData : Invalid interval='"
         ++ numberToString (interval dto) ++ "'").

(** What [e.toString()] throws on a value that has no text. *)
Definition noToString `{RT : Runtime} (e : Thrown) : Thrown :=
  match e with
  | Undefined => TypeError undefinedMessage
  | Null => TypeError nullMessage
  | Opaque failure => failure
  | _ => e
  end.

(** The ledger row of a job after [finalize]. *)
Definition finalized (row : ProxyJobLog) (name link : string) (status : Z)
    (msg : string) : ProxyJobLog :=
  {| id := id row; provider_name := name; url := link; status_code := status;
     message := msg; created_at := created_at row |}.

(** The shapes of runs the properties speak of. *)
Section Shapes.

Context {StockDataBar AvExchange AvInterval : Type}.

(** The log line the bar-store save leaves behind, some time later. *)
Definition saveLine (p : Path) (saved : Settled unit)
    : Effect StockDataBar AvExchange AvInterval :=
  match saved with
  | Fulfilled _ =>
      Logged LOG ("AlphaVantageService : " ++ saveName p ++ ": success") None
  | Rejected err =>
      Logged LOG ("AlphaVantageService : " ++ saveName p ++ ": failed") (Some err)
  end.

(** What a method returns for what the read-back gave. *)
Definition answer (row : Outcome ProxyJobLog)
    : Outcome StockDataRetrievalJobResponseDto :=
  match row with
  | Return r => Return {| proxyJobLog := r |}
  | Throw e => Throw e
  end.

(** The run of a request that [retrieveStockData] turns down. *)
Definition turnedDown (dto : StockDataRetrievalJobDto) (jobId : option Z)
    (rows : World) (e : Thrown)
    : Outcome StockDataRetrievalJobResponseDto * World
      * list (Effect StockDataBar AvExchange AvInterval) :=
  (Throw e, rows, [Entered "retrieveStockData" dto jobId]).

End Shapes.

(** ** A concrete provider, for the examples

    Bars are numbers, the converters keep the exchange and print the
    interval, a day is 1440 minutes.  The framework prints an HttpException
    with its class name, as its versions from 8 on do. *)
Module Demo.

Definition runtime : Runtime :=
  {| httpExceptionText := named "HttpException";
     undefinedMessage := "Cannot read properties of undefined (reading 'toString')";
     nullMessage := "Cannot read properties of null (reading 'toString')";
     ledgerInconsistency := fun _ => Foreign "LedgerInconsistency" |}.
#[local] Existing Instance runtime.

Definition ONE_DAY : Z := 1440.
Definition alphaVantageExchange (e : string) : string := e.
Definition alphaVantageInterval (i : Z) : string := pretty i.

Definition api (health : Settled string) (bars : Settled (list Z))
    : IAlphavantageAPI Z string string string :=
  {| getHealth := health;
     getDailyDataUrl := fun s e i => "daily/" ++ s ++ "/" ++ e ++ "/" ++ i;
     getIntraDayDataUrl := fun s e i => "intraday/" ++ s ++ "/" ++ e ++ "/" ++ i;
     getDailyData := fun _ _ _ => bars;
     getIntraDayData := fun _ _ _ => bars |}.

Definition service (d : CapabilityDescriptor) (health : Settled string)
    (bars : Settled (list Z)) (saved : Settled unit)
    : AlphaVantageService Z string string string :=
  {| _alphaVantageAPI := api health bars;
     ALPHA_PROXY_CONFIG := config_of d;
     saveStockDataToDb := fun _ _ _ _ => saved |}.

(** The descriptor of scenario A, and one that declares no daily bars. *)
Definition nasdaq : CapabilityDescriptor :=
  {| exchanges := ["NASDAQ"]; intraday_intervals := []; daily_supported := true |}.
Definition nasdaq_intraday_only : CapabilityDescriptor :=
  {| exchanges := ["NASDAQ"]; intraday_intervals := [5]; daily_supported := false |}.

Definition aapl_daily : StockDataRetrievalJobDto :=
  {| symbol := "AAPL"; exchange := "NASDAQ"; interval := ONE_DAY |}.
Definition aapl_5min : StockDataRetrievalJobDto :=
  {| symbol := "AAPL"; exchange := "NASDAQ"; interval := 5 |}.
Definition nyse_daily : StockDataRetrievalJobDto :=
  {| symbol := "IBM"; exchange := "NYSE"; interval := ONE_DAY |}.
Definition nyse_odd : StockDataRetrievalJobDto :=
  {| symbol := "IBM"; exchange := "NYSE"; interval := 7 |}.

(** The row of job 1, as its creator left it. *)
Definition row1 : ProxyJobLog :=
  {| id := 1; provider_name := "AlphaVantage"; url := "";
     status_code := 0; message := ""; created_at := 0 |}.

(** A ledger with that row and nothing in flight, where an update that is
    not awaited reaches the store before the next read. *)
Definition created : World :=
  {| stored := {[ 1 := row1 ]}; inFlight := []; landsFirst := true |}.

(** The same ledger, where such an update reaches the store after the next
    read. *)
Definition createdLate : World :=
  {| stored := {[ 1 := row1 ]}; inFlight := []; landsFirst := false |}.

Definition retrieve (d : CapabilityDescriptor) (bars : Settled (list Z))
    (saved : Settled unit) (dto : StockDataRetrievalJobDto) (jobId : option Z) :=
  retrieveStockData ONE_DAY alphaVantageExchange alphaVantageInterval
    (service d (Fulfilled "up") bars saved) dto jobId created.

(** Scenario B of the spec: an exchange the provider does not list. *)
Definition scenarioB :=
  retrieve nasdaq (Fulfilled [1; 2; 3]) (Fulfilled tt) nyse_daily (Some 1).

(** An interval the provider does not list. *)
Definition oddInterval :=
  retrieve nasdaq (Fulfilled [1; 2; 3]) (Fulfilled tt) aapl_5min (Some 1).

(** A daily request to a provider whose descriptor declares no daily bars. *)
Definition undeclaredDaily :=
  retrieve nasdaq_intraday_only (Fulfilled [1; 2; 3]) (Fulfilled tt) aapl_daily (Some 1).

(** The external source times out. *)
Definition timedOut :=
  retrieve nasdaq (Rejected (Foreign "ETIMEDOUT")) (Fulfilled tt) aapl_daily (Some 1).

(** The health check of the external source fails. *)
Definition unreachable : AlphaVantageService Z string string string :=
  service nasdaq (Rejected (Foreign "ECONNREFUSED")) (Fulfilled []) (Fulfilled tt).

End Demo.


(** ** Paths and construction *)

(** The path [retrieveStockData] takes for an accepted request. *)
Definition pathFor (ONE_DAY : Z) (dto : StockDataRetrievalJobDto) : Path :=
  if decide (interval dto = ONE_DAY) then Daily else IntraDay.

(** The constructors of the two services, as far as they set the fields of
    the base class: the name of the proxy, the name of its key and the key
    itself, which [ConfigService.get] leaves undefined when it is not
    configured.  The configuration is the finite map of the keys that are
    set.  (The constructor of [AlphaVantageService] goes on to build its
    capability configuration and its client from classes that are not at
    hand.) *)
Module Construction.

Record DataProxyService : Type := {
  PROXY_NAME : string;
  API_KEY_NAME : string;
  API_KEY : option string
}.

(** [configService.get<string>(key)] *)
Definition get (configService : gmap string string) (key : string)
    : option string :=
  configService !! key.

Definition MarketStackService (configService : gmap string string)
    : DataProxyService :=
  let PROXY_NAME := "MarketStack" in
  let API_KEY_NAME := "PROXY_APIKEY_MARKET_STACK" in
  {| PROXY_NAME := PROXY_NAME;
     API_KEY_NAME := API_KEY_NAME;
     API_KEY := get configService API_KEY_NAME |}.

Definition AlphaVantageService (configService : gmap string string)
    : DataProxyService :=
  let PROXY_NAME := "AlphaVantage" in
  let API_KEY_NAME := "PROXY_APIKEY_ALPHA_VANTAGE" in
  {| PROXY_NAME := PROXY_NAME;
     API_KEY_NAME := API_KEY_NAME;
     API_KEY := get configService API_KEY_NAME |}.

End Construction.

(** Further concrete inputs: a service whose capability lists are both
    undefined, one whose intraday list also names the day, and a request on
    an exchange that no list names. *)
Module Examples.

#[local] Existing Instance Demo.runtime.

Definition bare : AlphaVantageService Z string string string :=
  {| _alphaVantageAPI := Demo.api (Fulfilled "up") (Fulfilled [1; 2; 3]);
     ALPHA_PROXY_CONFIG := {| openExchanges := None; intraDayIntervals := None |};
     saveStockDataToDb := fun _ _ _ _ => Fulfilled tt |}.

Definition dailyOnly : AlphaVantageService Z string string string :=
  {| _alphaVantageAPI := Demo.api (Fulfilled "up") (Fulfilled [1; 2; 3]);
     ALPHA_PROXY_CONFIG :=
       {| openExchanges := Some ["NASDAQ"]; intraDayIntervals := None |};
     saveStockDataToDb := fun _ _ _ _ => Fulfilled tt |}.

Definition dayListedTwice : CapabilityDescriptor :=
  {| exchanges := ["NASDAQ"]; intraday_intervals := [5; Demo.ONE_DAY];
     daily_supported := true |}.

Definition working : AlphaVantageService Z string string string :=
  Demo.service Demo.nasdaq (Fulfilled "up") (Fulfilled [1; 2; 3]) (Fulfilled tt).

Definition failing (reason : Thrown) : AlphaVantageService Z string string string :=
  Demo.service Demo.nasdaq (Fulfilled "up") (Rejected reason) (Fulfilled tt).

(** The framework as its version 7 prints an HttpException: under the name
    Error. *)
Definition runtime7 : Runtime :=
  {| httpExceptionText := named "Error";
     undefinedMessage := "Cannot read property 'toString' of undefined";
     nullMessage := "Cannot read property 'toString' of null";
     ledgerInconsistency := fun _ => Foreign "LedgerInconsistency" |}.


(** The daily method of a service whose fetch fails, on the request of
    scenario A, under a given runtime. *)
Definition failed (R : Runtime) (reason : Thrown) :=
  retrieveDailyData (RT := R) Demo.alphaVantageExchange Demo.alphaVantageInterval
    (failing reason) Demo.aapl_daily (Some 1) Demo.created.

(** The fetch works, the bar store fails, and the update reaches the store
    after the read-back. *)
Definition saveFailedLate :=
  retrieveDailyData Demo.alphaVantageExchange Demo.alphaVantageInterval
    (Demo.service Demo.nasdaq (Fulfilled "up") (Fulfilled [1; 2; 3])
       (Rejected (Foreign "db down")))
    Demo.aapl_daily (Some 1) Demo.createdLate.

(** The fetch and the save work, and the update reaches the store after the
    read-back. *)
Definition readLate :=
  retrieveDailyData Demo.alphaVantageExchange Demo.alphaVantageInterval working
    Demo.aapl_daily (Some 1) Demo.createdLate.

End Examples.

(** * Properties *)

(** ** Numbers *)





(** ** The ledger *)

Lemma settled_handOver u w : settled (handOver u w) = Ledger.write u (settled w).
Proof. unfold settled, handOver. cbn. by rewrite foldl_app. Qed.

Lemma settled_atRead w : settled (atRead w) = settled w.
Proof. unfold atRead. destruct (landsFirst w); reflexivity. Qed.

Lemma stored_atRead_prompt w : landsFirst w = true -> stored (atRead w) = settled w.
Proof. unfold atRead. by intros ->. Qed.

Lemma atRead_late w : landsFirst w = false -> atRead w = w.
Proof. unfold atRead. by intros ->. Qed.

Lemma lookup_finalize j name link status msg rows row :
  rows !! j = Some row ->
  Ledger.finalize (Some j) name link status msg rows !! j
  = Some (finalized row name link status msg).
Proof.
  intros Hrow. unfold Ledger.finalize. rewrite lookup_alter_eq, Hrow. reflexivity.
Qed.

Lemma finalize_other j k name link status msg rows :
  j <> k ->
  Ledger.finalize (Some j) name link status msg rows !! k = rows !! k.
Proof. intros Hjk. unfold Ledger.finalize. by rewrite lookup_alter_ne. Qed.

(** [s.startsWith(p)] holds exactly when [s] is [p] followed by something. *)
Lemma startsWith_spec (s p : string) :
  startsWith s p = true <-> exists rest, s = p ++ rest.
Proof.
  unfold startsWith. revert s. induction p as [|a p IH]; intros s; simpl.
  - split; [intros _; by exists s | intros _; by destruct s].
  - destruct s as [|b s]; simpl.
    + split; [discriminate | intros [rest Hr]; discriminate Hr].
    + destruct (ascii_dec a b) as [->|Hab].
      * rewrite IH. split; intros [rest Hr]; exists rest; [by rewrite Hr | by injection Hr].
      * split; [discriminate | intros [rest Hr]; injection Hr as H1 _; congruence].
Qed.

(** ** Runs of the retrieval methods, in closed form *)

Ltac unfold_run :=
  cbv [retrieveOn retrieveStockData retrieveDailyData retrieveIntraDayData
       updateProxyJobLog findProxyJobLogById pingProxyHealth log logEntry emit
       callToString detached catch bind await ret throw urlOf fetchOf statusFor
       noToString answer outcome ledgerAfter effects fst snd].

Ltac unfold_entry :=
  cbv [retrieveStockData retrieveOn bind logEntry emit throw afterEntry].

Ltac observe :=
  cbn [outcome ledgerAfter effects afterEntry fst snd
       fetches ledgerUpdates ledgerFinds saves].

Section ServiceFacts.

Context {StockDataBar AvExchange AvInterval HealthReport : Type}.
Context `{RT : Runtime}.
Variable ONE_DAY : Z.
Variable alphaVantageExchange : string -> AvExchange.
Variable alphaVantageInterval : Z -> AvInterval.

Implicit Types
  (this : AlphaVantageService StockDataBar AvExchange AvInterval HealthReport)
  (dto : StockDataRetrievalJobDto) (jobId : option Z)
  (rows : World) (p : Path).

Local Abbreviation retrieveStockData :=
  (retrieveStockData ONE_DAY alphaVantageExchange alphaVantageInterval).
Local Abbreviation retrieveOn := (retrieveOn alphaVantageExchange alphaVantageInterval).
Local Abbreviation urlOf := (urlOf alphaVantageExchange alphaVantageInterval).
Local Abbreviation fetchOf := (fetchOf alphaVantageExchange alphaVantageInterval).

Lemma retrieveOn_Daily this :
  retrieveOn this Daily = retrieveDailyData alphaVantageExchange alphaVantageInterval this.
Proof. reflexivity. Qed.

(** A fetch that fails with a value that has a text: entry line, fetch,
    warning or error line, ledger update handed over, and the
    HttpException. *)
Lemma retrieveOn_rejected this p dto jobId rows e :
  fetchOf this p dto = Rejected e ->
  hasToString e = true ->
  retrieveOn this p dto jobId rows =
  (Throw (HttpException (toString e) (statusFor e)),
   handOver (jobId, PROXY_NAME, urlOf this p dto, statusFor e, toString e) rows,
   [Entered (pathName p) dto jobId;
    Fetched p (symbol dto) (alphaVantageExchange (exchange dto))
      (alphaVantageInterval (interval dto));
    Logged (if startsWith (toString e) "Error:" then WARN else ERROR)
      ("AlphaVantageService : " ++ pathName p ++ ": error") (Some e);
    LedgerUpdate jobId PROXY_NAME (urlOf this p dto) (statusFor e) (toString e)]).
Proof.
  destruct p; unfold_run; intros -> Ht; destruct e; try discriminate Ht;
    match goal with
    | |- context [startsWith ?t "Error:"] => destruct (startsWith t "Error:")
    end; reflexivity.
Qed.

(** A fetch that fails with undefined or null: the handler fails on
    [error.toString()], before it has logged or written anything. *)
Lemma retrieveOn_escaped this p dto jobId rows e :
  fetchOf this p dto = Rejected e ->
  hasToString e = false ->
  retrieveOn this p dto jobId rows =
  (Throw (noToString e), rows,
   [Entered (pathName p) dto jobId;
    Fetched p (symbol dto) (alphaVantageExchange (exchange dto))
      (alphaVantageInterval (interval dto))]).
Proof.
  destruct p; unfold_run; intros -> Ht; destruct e; try discriminate Ht;
    reflexivity.
Qed.

(** A fetch that works: entry line, fetch, success line, save started,
    ledger update handed over, read-back, and what the read-back gave as
    the result. *)
Lemma retrieveOn_fulfilled this p dto jobId rows data :
  fetchOf this p dto = Fulfilled data ->
  retrieveOn this p dto jobId rows =
  (answer
     (Ledger.find jobId
        (stored
           (atRead
              (handOver (jobId, PROXY_NAME, urlOf this p dto, HttpStatus.OK,
                         "DataSize=" ++ pretty (length data)) rows)))),
   atRead
     (handOver (jobId, PROXY_NAME, urlOf this p dto, HttpStatus.OK,
                "DataSize=" ++ pretty (length data)) rows),
   [Entered (pathName p) dto jobId;
    Fetched p (symbol dto) (alphaVantageExchange (exchange dto))
      (alphaVantageInterval (interval dto));
    Logged LOG ("AlphaVantageService : " ++ pathName p ++ ": success") None;
    Saved (symbol dto) (exchange dto) (interval dto) data;
    Later (saveLine p (saveStockDataToDb this (symbol dto) (exchange dto)
                         (interval dto) data));
    LedgerUpdate jobId PROXY_NAME (urlOf this p dto) HttpStatus.OK
      ("DataSize=" ++ pretty (length data));
    LedgerFind jobId]).
Proof.
  destruct p; unfold_run; intros ->;
    destruct (saveStockDataToDb this _ _ _ _);
    match goal with
    | |- context [Ledger.find ?j ?r] => destruct (Ledger.find j r)
    end; reflexivity.
Qed.

Lemma includes_true {A : Type} `{EqDecision A} (xs : option (list A)) (x : A) :
  includes xs x = true <-> x ∈ default [] xs.
Proof.
  destruct xs as [l|]; simpl.
  - apply bool_decide_eq_true.
  - split; [discriminate | intros H'; by apply not_elem_of_nil in H'].
Qed.

Lemma includes_false {A : Type} `{EqDecision A} (xs : option (list A)) (x : A) :
  includes xs x = false <-> x ∉ default [] xs.
Proof.
  rewrite <- includes_true. destruct (includes xs x); split; congruence.
Qed.

(** The four ways through [retrieveStockData]. *)
Lemma retrieveStockData_cases this dto jobId rows :
  let E := supportedExchanges (ALPHA_PROXY_CONFIG this) in
  let I := supportedIntraDay (ALPHA_PROXY_CONFIG this) in
  let run := retrieveStockData this dto jobId rows in
  ((exchange dto ∉ E) /\
   run = turnedDown dto jobId rows (invalidExchange dto))
  \/ (exchange dto ∈ E /\ interval dto = ONE_DAY /\
      run = afterEntry dto jobId (retrieveOn this Daily dto jobId rows))
  \/ (exchange dto ∈ E /\ interval dto <> ONE_DAY /\ interval dto ∈ I /\
      run = afterEntry dto jobId (retrieveOn this IntraDay dto jobId rows))
  \/ (exchange dto ∈ E /\ interval dto <> ONE_DAY /\ (interval dto ∉ I) /\
      run = turnedDown dto jobId rows (invalidInterval dto)).
Proof.
  intros E I run. subst E I run.
  unfold supportedExchanges, supportedIntraDay, turnedDown.
  unfold_entry.
  destruct (includes (openExchanges _) (exchange dto)) eqn:Hex.
  - apply includes_true in Hex. right.
    destruct (Z.eqb_spec (interval dto) ONE_DAY) as [Hday|Hday].
    + left. repeat split; try done.
      by destruct (retrieveDailyData _ _ _ _ _) as [[o r] t].
    + right.
      destruct (includes (intraDayIntervals _) (interval dto)) eqn:Hiv.
      * apply includes_true in Hiv. left. repeat split; try done.
        by destruct (retrieveIntraDayData _ _ _ _ _) as [[o r] t].
      * apply includes_false in Hiv. right. repeat split; done.
  - apply includes_false in Hex. left. split; done.
Qed.

(** The three ways through a retrieval method. *)
Lemma retrieveOn_cases this p dto jobId rows :
  (exists data, fetchOf this p dto = Fulfilled data)
  \/ (exists e, fetchOf this p dto = Rejected e /\ hasToString e = true)
  \/ (exists e, fetchOf this p dto = Rejected e /\ hasToString e = false).
Proof.
  destruct (fetchOf this p dto) as [data|e]; [eauto|].
  destruct (hasToString e) eqn:He; eauto.
Qed.

Lemma fetches_afterEntry {A : Type} dto jobId
    (run : Outcome A * World
           * list (Effect StockDataBar AvExchange AvInterval)) :
  fetches (effects (afterEntry dto jobId run)) = fetches (effects run).
Proof. reflexivity. Qed.

Lemma ledgerUpdates_afterEntry {A : Type} dto jobId
    (run : Outcome A * World
           * list (Effect StockDataBar AvExchange AvInterval)) :
  ledgerUpdates (effects (afterEntry dto jobId run)) = ledgerUpdates (effects run).
Proof. reflexivity. Qed.

Lemma fetches_retrieveOn this p dto jobId rows :
  fetches (effects (retrieveOn this p dto jobId rows)) = [p].
Proof.
  destruct (retrieveOn_cases this p dto jobId rows)
    as [[data Hf]|[(e & Hf & He)|(e & Hf & He)]].
  - by rewrite (retrieveOn_fulfilled _ _ _ _ _ _ Hf).
  - by rewrite (retrieveOn_rejected _ _ _ _ _ _ Hf He).
  - by rewrite (retrieveOn_escaped _ _ _ _ _ _ Hf He).
Qed.

(** A retrieval method hands the ledger one update when its fetch is
    fulfilled or rejected with a value that has a text, and never more than
    one. *)
Lemma ledgerUpdates_retrieveOn this p dto jobId rows :
  answers (fetchOf this p dto) ->
  exists s m,
    ledgerUpdates (effects (retrieveOn this p dto jobId rows))
    = [(jobId, PROXY_NAME, urlOf this p dto, s, m)].
Proof.
  intros Ha.
  destruct (retrieveOn_cases this p dto jobId rows)
    as [[data Hf]|[(e & Hf & He)|(e & Hf & He)]].
  - rewrite (retrieveOn_fulfilled _ _ _ _ _ _ Hf). observe. eauto.
  - rewrite (retrieveOn_rejected _ _ _ _ _ _ Hf He). observe. eauto.
  - rewrite Hf in Ha. simpl in Ha. congruence.
Qed.

Lemma ledgerUpdates_retrieveOn_le this p dto jobId rows :
  (length (ledgerUpdates (effects (retrieveOn this p dto jobId rows))) <= 1)%nat.
Proof.
  destruct (retrieveOn_cases this p dto jobId rows)
    as [[data Hf]|[(e & Hf & He)|(e & Hf & He)]].
  - rewrite (retrieveOn_fulfilled _ _ _ _ _ _ Hf). observe. simpl. lia.
  - rewrite (retrieveOn_rejected _ _ _ _ _ _ Hf He). observe. simpl. lia.
  - rewrite (retrieveOn_escaped _ _ _ _ _ _ Hf He). observe. simpl. lia.
Qed.

Lemma accepted_afterEntry this p dto jobId rows :
  accepted (afterEntry dto jobId (retrieveOn this p dto jobId rows)).
Proof. exists p. rewrite fetches_afterEntry. apply fetches_retrieveOn. Qed.

Lemma turnedDown_not_accepted dto jobId rows e :
  ~ accepted (turnedDown (StockDataBar:=StockDataBar) (AvExchange:=AvExchange)
                (AvInterval:=AvInterval) dto jobId rows e).
Proof. intros [p Hp]. discriminate Hp. Qed.

Lemma retrieveStockData_bad_exchange this dto jobId rows :
  exchange dto ∉ supportedExchanges (ALPHA_PROXY_CONFIG this) ->
  retrieveStockData this dto jobId rows
  = turnedDown dto jobId rows (invalidExchange dto).
Proof.
  intros Hex.
  by destruct (retrieveStockData_cases this dto jobId rows)
    as [[_ Hrun]|[(H & _)|[(H & _)|(H & _)]]].
Qed.

Lemma pathFor_day dto : interval dto = ONE_DAY -> pathFor ONE_DAY dto = Daily.
Proof. intros H. unfold pathFor. by rewrite decide_True. Qed.

Lemma pathFor_other dto : interval dto <> ONE_DAY -> pathFor ONE_DAY dto = IntraDay.
Proof. intros H. unfold pathFor. by rewrite decide_False. Qed.

(** An accepted request is handed to the retrieval method of its path. *)
Lemma retrieveStockData_accepted_run this dto jobId rows :
  accepted (retrieveStockData this dto jobId rows) ->
  retrieveStockData this dto jobId rows
  = afterEntry dto jobId (retrieveOn this (pathFor ONE_DAY dto) dto jobId rows).
Proof.
  destruct (retrieveStockData_cases this dto jobId rows)
    as [[Hex Hrun]|[(Hex & Hday & Hrun)|[(Hex & Hday & Hiv & Hrun)|(Hex & Hday & Hiv & Hrun)]]];
    rewrite Hrun.
  - intros H. by apply turnedDown_not_accepted in H.
  - intros _. by rewrite pathFor_day.
  - intros _. by rewrite pathFor_other.
  - intros H. by apply turnedDown_not_accepted in H.
Qed.

(** A request that is not accepted is turned down with one of the two
    errors, after the entry line and nothing else. *)
Lemma retrieveStockData_rejected_run this dto jobId rows :
  ~ accepted (retrieveStockData this dto jobId rows) ->
  exists e, (e = invalidExchange dto \/ e = invalidInterval dto)
            /\ retrieveStockData this dto jobId rows = turnedDown dto jobId rows e.
Proof.
  destruct (retrieveStockData_cases this dto jobId rows)
    as [[Hex Hrun]|[(Hex & Hday & Hrun)|[(Hex & Hday & Hiv & Hrun)|(Hex & Hday & Hiv & Hrun)]]];
    rewrite Hrun; intros Hn.
  - eauto.
  - destruct Hn. apply accepted_afterEntry.
  - destruct Hn. apply accepted_afterEntry.
  - eauto.
Qed.

Lemma accepted_dec this dto jobId rows :
  accepted (retrieveStockData this dto jobId rows)
  \/ ~ accepted (retrieveStockData this dto jobId rows).
Proof.
  destruct (retrieveStockData_cases this dto jobId rows)
    as [[Hex Hrun]|[(Hex & Hday & Hrun)|[(Hex & Hday & Hiv & Hrun)|(Hex & Hday & Hiv & Hrun)]]];
    rewrite Hrun.
  - right. apply turnedDown_not_accepted.
  - left. apply accepted_afterEntry.
  - left. apply accepted_afterEntry.
  - right. apply turnedDown_not_accepted.
Qed.

(** Acceptance in terms of the two lists. *)
Lemma accepted_iff_listed this dto jobId rows :
  accepted (retrieveStockData this dto jobId rows)
  <-> exchange dto ∈ supportedExchanges (ALPHA_PROXY_CONFIG this)
      /\ (interval dto = ONE_DAY
          \/ interval dto ∈ supportedIntraDay (ALPHA_PROXY_CONFIG this)).
Proof.
  destruct (retrieveStockData_cases this dto jobId rows)
    as [[Hex Hrun]|[(Hex & Hday & Hrun)|[(Hex & Hday & Hiv & Hrun)|(Hex & Hday & Hiv & Hrun)]]];
    rewrite Hrun.
  - split; [intros H; by apply turnedDown_not_accepted in H
           | intros [H _]; by apply Hex in H].
  - split; [eauto | intros _; apply accepted_afterEntry].
  - split; [eauto | intros _; apply accepted_afterEntry].
  - split; [intros H; by apply turnedDown_not_accepted in H
           | intros [_ [H|H]]; done].
Qed.

(** The text of an Error with a message, and of the two errors of
    [retrieveStockData]. *)
Lemma toString_Error m : m <> "" -> toString (Error m) = "Error: " ++ m.
Proof. intros Hm. unfold toString, named. by destruct (decide (m = "")). Qed.

Lemma statusFor_Error m :
  statusFor (Error m) = HttpStatus.BAD_REQUEST <-> m <> "".
Proof.
  unfold statusFor, toString, named.
  destruct (decide (m = "")) as [->|Hm]; cbn; split; try done.
Qed.

(** The status of the handler is BAD_REQUEST exactly for a text that starts
    with the prefix, and INTERNAL_SERVER_ERROR for every other. *)
Lemma statusFor_spec e :
  (statusFor e = HttpStatus.BAD_REQUEST /\
   exists rest, toString e = "Error:" ++ rest)
  \/ (statusFor e = HttpStatus.INTERNAL_SERVER_ERROR /\
      ~ exists rest, toString e = "Error:" ++ rest).
Proof.
  unfold statusFor.
  destruct (startsWith (toString e) "Error:") eqn:Hs.
  - left. split; [reflexivity | by apply startsWith_spec].
  - right. split; [reflexivity|]. rewrite <- startsWith_spec. congruence.
Qed.

(** *** Admission *)

(** C1, as the code has it: [retrieveStockData] enters a fetch path if and
    only if the exchange of the request is among the open exchanges of the
    configuration and the interval is ONE_DAY or among its intraday
    intervals; no daily-support flag is consulted, and a ONE_DAY request
    takes the daily path.  Every other request raises an Error that names
    the exchange or the interval, whose text starts with the prefix the
    error handler of the retrieval methods takes for a client error; it
    touches no ledger row. *)
Theorem retrieveStockData_accepts_iff this dto jobId rows :
  let run := retrieveStockData this dto jobId rows in
  (accepted run <->
   exchange dto ∈ supportedExchanges (ALPHA_PROXY_CONFIG this) /\
   (interval dto = ONE_DAY \/
    interval dto ∈ supportedIntraDay (ALPHA_PROXY_CONFIG this)))
  /\ (accepted run ->
      fetches (effects run)
      = [if decide (interval dto = ONE_DAY) then Daily else IntraDay])
  /\ (~ accepted run ->
      (outcome run = Throw (invalidExchange dto) \/
       outcome run = Throw (invalidInterval dto))
      /\ (exists e, outcome run = Throw e /\
                    startsWith (toString e) "Error:" = true)
      /\ ledgerAfter run = rows
      /\ ledgerUpdates (effects run) = []).
Proof.
  intros run.
  destruct (retrieveStockData_cases this dto jobId rows)
    as [[Hex Hrun]|[(Hex & Hday & Hrun)|[(Hex & Hday & Hiv & Hrun)|(Hex & Hday & Hiv & Hrun)]]];
    fold run in Hrun; rewrite Hrun; (split; [|split]).
  - split; [intros H; by apply turnedDown_not_accepted in H
           | intros [H _]; by apply Hex in H].
  - intros H. by apply turnedDown_not_accepted in H.
  - intros _. unfold turnedDown. observe. repeat split; eauto.
  - split; [eauto | intros _; apply accepted_afterEntry].
  - intros _. rewrite fetches_afterEntry, fetches_retrieveOn. by rewrite decide_True.
  - intros H. destruct H. apply accepted_afterEntry.
  - split; [eauto | intros _; apply accepted_afterEntry].
  - intros _. rewrite fetches_afterEntry, fetches_retrieveOn. by rewrite decide_False.
  - intros H. destruct H. apply accepted_afterEntry.
  - split; [intros H; by apply turnedDown_not_accepted in H
           | intros [_ [H|H]]; done].
  - intros H. by apply turnedDown_not_accepted in H.
  - intros _. unfold turnedDown. observe. repeat split; eauto.
Qed.

(** The admissibility test of the spec, spelled out. *)
Lemma is_admissible_true (r : StockDataRetrievalJobDto) (d : CapabilityDescriptor) :
  is_admissible ONE_DAY r d = true <->
  exchange r ∈ exchanges d /\
  (interval r = ONE_DAY /\ daily_supported d = true \/
   interval r ∈ intraday_intervals d).
Proof.
  unfold is_admissible.
  rewrite andb_true_iff, orb_true_iff, andb_true_iff, !bool_decide_eq_true, Z.eqb_eq.
  tauto.
Qed.

(** The routing of the code is the admissibility of the spec for every
    descriptor that declares daily bars. *)
Lemma accepted_iff_admissible this (d : CapabilityDescriptor) dto jobId rows :
  ALPHA_PROXY_CONFIG this = config_of d ->
  daily_supported d = true ->
  accepted (retrieveStockData this dto jobId rows)
  <-> is_admissible ONE_DAY dto d = true.
Proof.
  intros Hcfg Hdaily. rewrite is_admissible_true, Hdaily.
  destruct (retrieveStockData_cases this dto jobId rows)
    as [[Hex Hrun]|[(Hex & Hday & Hrun)|[(Hex & Hday & Hiv & Hrun)|(Hex & Hday & Hiv & Hrun)]]];
    rewrite Hrun; rewrite Hcfg in *; cbn in Hex.
  - split; [intros H; by apply turnedDown_not_accepted in H
           | intros [H _]; by apply Hex in H].
  - split; [intros _; split; [done | by left] | intros _; apply accepted_afterEntry].
  - cbn in Hiv.
    split; [intros _; split; [done | by right] | intros _; apply accepted_afterEntry].
  - cbn in Hiv. split; [intros H; by apply turnedDown_not_accepted in H|].
    intros [_ [[H _]|H]]; done.
Qed.

(** C3, as the code has it: for a request whose exchange is not among the
    open exchanges, [retrieveStockData] raises the Error that names the
    exchange (an Error, carrying no status code), attempts no fetch, and
    leaves the ledger as it was: it makes no ledger update.  The text of the
    Error is one the error handler of the retrieval methods would file
    under BAD_REQUEST. *)
Theorem retrieveStockData_unsupported_exchange this dto jobId rows :
  exchange dto ∉ supportedExchanges (ALPHA_PROXY_CONFIG this) ->
  let run := retrieveStockData this dto jobId rows in
  outcome run = Throw (invalidExchange dto)
  /\ fetches (effects run) = []
  /\ ledgerUpdates (effects run) = []
  /\ ledgerAfter run = rows
  /\ statusFor (invalidExchange dto) = HttpStatus.BAD_REQUEST.
Proof.
  intros Hex run. subst run.
  rewrite (retrieveStockData_bad_exchange _ _ _ _ Hex).
  unfold turnedDown. observe. repeat split.
Qed.

(** C10: the exchange is checked before the interval.  For a request whose
    exchange is not among the open exchanges, the error raised is the
    invalid-exchange error whatever the interval is, in particular when the
    interval is neither ONE_DAY nor a supported intraday interval; it is
    never the invalid-interval error. *)
Theorem retrieveStockData_exchange_first this dto jobId rows :
  exchange dto ∉ supportedExchanges (ALPHA_PROXY_CONFIG this) ->
  forall iv,
    let run := retrieveStockData this (withInterval dto iv) jobId rows in
    outcome run = Throw (invalidExchange dto)
    /\ outcome run <> Throw (invalidInterval (withInterval dto iv))
    /\ outcome run = outcome (retrieveStockData this dto jobId rows).
Proof.
  intros Hex iv run. subst run.
  rewrite (retrieveStockData_bad_exchange this dto jobId rows Hex).
  rewrite (retrieveStockData_bad_exchange this (withInterval dto iv) jobId rows Hex).
  unfold turnedDown. observe. repeat split.
  unfold invalidExchange, invalidInterval. intros Heq.
  injection Heq as Heq. cbn in Heq. discriminate Heq.
Qed.

(** *** The ledger *)

(** C4, as the code has it: a run of either retrieval method never hands
    the ledger more than one update, and it hands it exactly one, for the
    job id it was given and the URL of the request, when the fetch is
    fulfilled or rejected with a value that has a text; so does every run
    of [retrieveStockData] that enters a fetch path.  A request that
    [retrieveStockData] turns down makes no ledger update.  (The converters
    and the URL builders are taken to return.) *)
Theorem one_ledger_update_per_fetch this dto jobId rows :
  (forall p,
      (length (ledgerUpdates (effects (retrieveOn this p dto jobId rows))) <= 1)%nat
      /\ (answers (fetchOf this p dto) ->
          exists s m,
            ledgerUpdates (effects (retrieveOn this p dto jobId rows))
            = [(jobId, PROXY_NAME, urlOf this p dto, s, m)]))
  /\ (let run := retrieveStockData this dto jobId rows in
      (length (ledgerUpdates (effects run)) <= 1)%nat
      /\ (accepted run ->
          answers (fetchOf this (pathFor ONE_DAY dto) dto) ->
          exists s m,
            ledgerUpdates (effects run)
            = [(jobId, PROXY_NAME, urlOf this (pathFor ONE_DAY dto) dto, s, m)])
      /\ (~ accepted run -> ledgerUpdates (effects run) = [])).
Proof.
  split.
  { intros p. split; [apply ledgerUpdates_retrieveOn_le
                     | apply ledgerUpdates_retrieveOn]. }
  intros run. subst run.
  destruct (accepted_dec this dto jobId rows) as [Hacc|Hrej].
  - rewrite (retrieveStockData_accepted_run _ _ _ _ Hacc).
    rewrite ledgerUpdates_afterEntry.
    split; [apply ledgerUpdates_retrieveOn_le|].
    split; [intros _; apply ledgerUpdates_retrieveOn|].
    intros H. destruct H. apply accepted_afterEntry.
  - destruct (retrieveStockData_rejected_run _ _ _ _ Hrej) as (e & _ & Hrun).
    rewrite Hrun. unfold turnedDown. observe.
    split; [simpl; lia|]. split; [|done].
    intros [q Hq]. discriminate Hq.
Qed.

(** C5, as the code has it: when the external fetch of a retrieval method
    is rejected with a value that has a text, the error is filed under
    exactly one of BAD_REQUEST (a 4xx code) and INTERNAL_SERVER_ERROR (a 5xx
    code); the one ledger update records the URL computed for the request,
    that status and the text of the error, and once it has landed the row
    of the job holds them; nothing is read back; and an HttpException with
    the same text and the same status is raised.  The class is read off
    the text alone: BAD_REQUEST exactly when the text starts with the
    prefix of an Error.  So an Error with a message is a client error
    whatever went wrong, and a value rejected as a string is a provider
    error unless the string itself starts with the prefix. *)
Theorem fetch_failure_classified this p dto jobId rows e :
  fetchOf this p dto = Rejected e ->
  hasToString e = true ->
  let run := retrieveOn this p dto jobId rows in
  outcome run = Throw (HttpException (toString e) (statusFor e))
  /\ ledgerUpdates (effects run)
     = [(jobId, PROXY_NAME, urlOf this p dto, statusFor e, toString e)]
  /\ ledgerFinds (effects run) = []
  /\ settled (ledgerAfter run)
     = Ledger.finalize jobId PROXY_NAME (urlOf this p dto) (statusFor e)
         (toString e) (settled rows)
  /\ (forall j row, jobId = Some j -> settled rows !! j = Some row ->
      settled (ledgerAfter run) !! j
      = Some (finalized row PROXY_NAME (urlOf this p dto) (statusFor e) (toString e)))
  /\ (statusFor e = HttpStatus.BAD_REQUEST /\ is4xx (statusFor e) /\
      (exists rest, toString e = "Error:" ++ rest)
      \/ statusFor e = HttpStatus.INTERNAL_SERVER_ERROR /\ is5xx (statusFor e) /\
         ~ (exists rest, toString e = "Error:" ++ rest))
  /\ ~ (is4xx (statusFor e) /\ is5xx (statusFor e))
  /\ (forall m, e = Error m -> m <> "" ->
      toString e = "Error: " ++ m /\ statusFor e = HttpStatus.BAD_REQUEST)
  /\ (forall t, e = Foreign t ->
      toString e = t
      /\ (statusFor e = HttpStatus.BAD_REQUEST <-> exists rest, t = "Error:" ++ rest)).
Proof.
  intros Hf He run. subst run.
  rewrite (retrieveOn_rejected _ _ _ _ _ _ Hf He). observe.
  split; [reflexivity|]. split; [reflexivity|]. split; [reflexivity|].
  split; [apply settled_handOver|].
  split.
  { intros j row -> Hrow. rewrite settled_handOver. by apply lookup_finalize. }
  split.
  { destruct (statusFor_spec e) as [[Hs Ht]|[Hs Ht]]; [left | right];
      rewrite Hs; (split; [reflexivity|]); (split; [|exact Ht]);
      unfold is4xx, is5xx, HttpStatus.BAD_REQUEST, HttpStatus.INTERNAL_SERVER_ERROR;
      lia. }
  split; [unfold is4xx, is5xx; lia|].
  split.
  { intros m -> Hm. split; [by apply toString_Error | by apply statusFor_Error]. }
  intros t ->. split; [reflexivity|].
  destruct (statusFor_spec (Foreign t)) as [[Hs Ht]|[Hs Ht]]; rewrite Hs.
  - split; [intros _; exact Ht | reflexivity].
  - split; [intros H; discriminate H | intros H; by destruct Ht].
Qed.

(** *** Health ping *)

(** C9, as the code has it: [pingProxyHealth] hands on what the health
    check of the external source gives: its report when the check succeeds,
    and its error, raised unchanged, when the check fails.  It writes
    nothing and adds no failure of its own. *)
Theorem pingProxyHealth_passes_through this rows :
  pingProxyHealth this rows
  = (match getHealth (_alphaVantageAPI this) with
     | Fulfilled report => Return report
     | Rejected e => Throw e
     end, rows, []).
Proof. unfold pingProxyHealth, await. by destruct (getHealth _). Qed.

(** *** Further properties of the dispatcher and the retrieval methods *)


(** X2: the capability lists are read through optional chaining.  With an
    undefined list of open exchanges every request is turned down with the
    invalid-exchange Error, whatever its interval; with open exchanges and
    an undefined list of intraday intervals a request is accepted exactly
    when its exchange is open and its interval is ONE_DAY. *)
Theorem undefined_capability_lists this dto jobId rows :
  let run := retrieveStockData this dto jobId rows in
  (openExchanges (ALPHA_PROXY_CONFIG this) = None ->
   outcome run = Throw (invalidExchange dto) /\ ~ accepted run)
  /\ (intraDayIntervals (ALPHA_PROXY_CONFIG this) = None ->
      (accepted run <->
       exchange dto ∈ supportedExchanges (ALPHA_PROXY_CONFIG this)
       /\ interval dto = ONE_DAY)
      /\ (accepted run -> fetches (effects run) = [Daily])).
Proof.
  intros run. subst run. split.
  - intros Hnone.
    assert (Hex : exchange dto ∉ supportedExchanges (ALPHA_PROXY_CONFIG this)).
    { unfold supportedExchanges. rewrite Hnone. apply not_elem_of_nil. }
    rewrite (retrieveStockData_bad_exchange _ _ _ _ Hex).
    split; [reflexivity | apply turnedDown_not_accepted].
  - intros Hnone.
    destruct (retrieveStockData_cases this dto jobId rows)
      as [[Hex Hrun]|[(Hex & Hday & Hrun)|[(Hex & Hday & Hiv & Hrun)|(Hex & Hday & Hiv & Hrun)]]];
      rewrite Hrun.
    + split; [split|]; intros H.
      * by apply turnedDown_not_accepted in H.
      * destruct H as [H _]. by apply Hex in H.
      * by apply turnedDown_not_accepted in H.
    + split; [split; [done | intros _; apply accepted_afterEntry]|].
      intros _. by rewrite fetches_afterEntry, fetches_retrieveOn.
    + exfalso. unfold supportedIntraDay in Hiv. rewrite Hnone in Hiv.
      by apply not_elem_of_nil in Hiv.
    + split; [split|]; intros H.
      * by apply turnedDown_not_accepted in H.
      * by destruct H as [_ H].
      * by apply turnedDown_not_accepted in H.
Qed.

(** X3: for an accepted request [retrieveStockData] adds one entry line and
    otherwise does what the retrieval method of the path does when called
    directly: same outcome, same ledger, same effects after the entry line.
    The daily path wins: a ONE_DAY request takes it even when ONE_DAY is
    also listed as an intraday interval. *)
Theorem retrieveStockData_delegates this dto jobId rows :
  let run := retrieveStockData this dto jobId rows in
  let direct := retrieveOn this (pathFor ONE_DAY dto) dto jobId rows in
  (accepted run ->
   outcome run = outcome direct
   /\ ledgerAfter run = ledgerAfter direct
   /\ effects run = Entered "retrieveStockData" dto jobId :: effects direct)
  /\ (exchange dto ∈ supportedExchanges (ALPHA_PROXY_CONFIG this) ->
      interval dto = ONE_DAY ->
      interval dto ∈ supportedIntraDay (ALPHA_PROXY_CONFIG this) ->
      fetches (effects run) = [Daily]).
Proof.
  intros run direct. subst run direct. split.
  - intros Hacc. rewrite (retrieveStockData_accepted_run _ _ _ _ Hacc).
    repeat split.
  - intros Hex Hday _.
    destruct (retrieveStockData_cases this dto jobId rows)
      as [[H Hrun]|[(_ & _ & Hrun)|[(_ & H & _)|(_ & H & _)]]]; try done.
    by rewrite Hrun, fetches_afterEntry, fetches_retrieveOn.
Qed.

(** X5: a run of a retrieval method opens with its entry line and then
    makes its one call to the external source, with the symbol of the
    request and the converted exchange and interval; every ledger call and
    the save come after it, and the call is not repeated when it fails.
    After it comes at most one ledger update, and exactly one when the
    fetch is fulfilled or rejected with a value that has a text. *)
Theorem fetch_once_and_first this p dto jobId rows :
  exists rest,
    effects (retrieveOn this p dto jobId rows)
    = Entered (pathName p) dto jobId
      :: Fetched p (symbol dto) (alphaVantageExchange (exchange dto))
           (alphaVantageInterval (interval dto))
      :: rest
    /\ fetches rest = []
    /\ (length (ledgerUpdates rest) <= 1)%nat
    /\ (answers (fetchOf this p dto) -> length (ledgerUpdates rest) = 1%nat)
    /\ (length (ledgerFinds rest) <= 1)%nat
    /\ (length (saves rest) <= 1)%nat.
Proof.
  destruct (retrieveOn_cases this p dto jobId rows)
    as [[data Hf]|[(e & Hf & He)|(e & Hf & He)]].
  - rewrite (retrieveOn_fulfilled _ _ _ _ _ _ Hf). observe.
    eexists. split; [reflexivity|]. cbn. repeat split; lia.
  - rewrite (retrieveOn_rejected _ _ _ _ _ _ Hf He). observe.
    eexists. split; [reflexivity|]. cbn. repeat split; lia.
  - rewrite (retrieveOn_escaped _ _ _ _ _ _ Hf He). observe.
    eexists. split; [reflexivity|]. cbn. rewrite Hf. cbn. rewrite He.
    repeat split; try lia; intros H; discriminate H.
Qed.

(** X6: the bar store is handed bars only after a fetch that worked.  A
    retrieval method whose fetch fails saves nothing and starts no
    unawaited chain, and whatever [retrieveStockData] saves is the result
    of the fetch on the path of the request, filed under the symbol, the
    exchange and the interval of the request as they came in. *)
Theorem saves_only_fetched_bars this dto jobId rows :
  (forall p e, fetchOf this p dto = Rejected e ->
      saves (effects (retrieveOn this p dto jobId rows)) = []
      /\ forall ev, ~ In (Later ev) (effects (retrieveOn this p dto jobId rows)))
  /\ (forall s, In s (saves (effects (retrieveStockData this dto jobId rows))) ->
      accepted (retrieveStockData this dto jobId rows)
      /\ exists data,
           fetchOf this (pathFor ONE_DAY dto) dto = Fulfilled data
           /\ s = (symbol dto, exchange dto, interval dto, data)).
Proof.
  split.
  - intros p e Hf. destruct (hasToString e) eqn:He.
    + rewrite (retrieveOn_rejected _ _ _ _ _ _ Hf He). observe.
      split; [reflexivity|].
      intros ev [H|[H|[H|[H|[]]]]]; discriminate H.
    + rewrite (retrieveOn_escaped _ _ _ _ _ _ Hf He). observe.
      split; [reflexivity|].
      intros ev [H|[H|[]]]; discriminate H.
  - intros s Hs.
    destruct (accepted_dec this dto jobId rows) as [Hacc|Hrej].
    + split; [exact Hacc|].
      rewrite (retrieveStockData_accepted_run _ _ _ _ Hacc) in Hs.
      destruct (retrieveOn_cases this (pathFor ONE_DAY dto) dto jobId rows)
        as [[data Hf]|[(e & Hf & He)|(e & Hf & He)]].
      * rewrite (retrieveOn_fulfilled _ _ _ _ _ _ Hf) in Hs. cbn in Hs.
        destruct Hs as [<-|[]]. eauto.
      * rewrite (retrieveOn_rejected _ _ _ _ _ _ Hf He) in Hs. cbn in Hs. done.
      * rewrite (retrieveOn_escaped _ _ _ _ _ _ Hf He) in Hs. cbn in Hs. done.
    + destruct (retrieveStockData_rejected_run _ _ _ _ Hrej) as (e & _ & Hrun).
      rewrite Hrun in Hs. cbn in Hs. done.
Qed.

(** X7: what the prefix test of the error handler comes to, kind by kind.
    A fetch rejected with an Error is filed under BAD_REQUEST unless the
    message of the Error is empty (its text is then the bare name, without
    colon); one rejected with a TypeError under INTERNAL_SERVER_ERROR.  For
    an HttpException the status it carried plays no part: the class hangs
    on the text the installed framework prints for it, INTERNAL_SERVER_ERROR
    where that is the class name and the response, BAD_REQUEST where it is
    the name Error and a response that is not empty.  In each case the
    ledger update and the HttpException raised carry that status and the
    text of the reason. *)
Theorem classification_by_kind this p dto jobId rows reason :
  fetchOf this p dto = Rejected reason ->
  hasToString reason = true ->
  let run := retrieveOn this p dto jobId rows in
  outcome run = Throw (HttpException (toString reason) (statusFor reason))
  /\ ledgerUpdates (effects run)
     = [(jobId, PROXY_NAME, urlOf this p dto, statusFor reason, toString reason)]
  /\ (forall m, reason = Error m ->
      (statusFor reason = HttpStatus.BAD_REQUEST <-> m <> "")
      /\ (m = "" -> toString reason = "Error"
                    /\ statusFor reason = HttpStatus.INTERNAL_SERVER_ERROR))
  /\ (forall m, reason = TypeError m ->
      statusFor reason = HttpStatus.INTERNAL_SERVER_ERROR)
  /\ (forall r s, reason = HttpException r s ->
      (forall s', statusFor (HttpException r s') = statusFor reason
                  /\ toString (HttpException r s') = toString reason)
      /\ (httpExceptionText r = named "HttpException" r ->
          statusFor reason = HttpStatus.INTERNAL_SERVER_ERROR)
      /\ (httpExceptionText r = named "Error" r -> r <> "" ->
          statusFor reason = HttpStatus.BAD_REQUEST)).
Proof.
  intros Hf He run. subst run.
  rewrite (retrieveOn_rejected _ _ _ _ _ _ Hf He). observe.
  split; [reflexivity|]. split; [reflexivity|]. split; [|split].
  - intros m ->. split; [apply statusFor_Error|]. by intros ->.
  - intros m ->. unfold statusFor, toString, named.
    by destruct (decide (m = "")).
  - intros r s ->. split; [by intros s'|]. unfold statusFor, toString. split.
    + intros ->. unfold named. by destruct (decide (r = "")).
    + intros -> Hr. unfold named. by destruct (decide (r = "")).
Qed.

(** X8: the ledger records the bars of a successful fetch by their number
    only, and the number can be read back from the message: two fetches for
    the same URL leave the same ledger update exactly when they brought the
    same number of bars, and then they leave the same ledger. *)
Theorem data_size_read_back this this' p dto jobId rows data data' :
  fetchOf this p dto = Fulfilled data ->
  fetchOf this' p dto = Fulfilled data' ->
  urlOf this p dto = urlOf this' p dto ->
  let run := retrieveOn this p dto jobId rows in
  let run' := retrieveOn this' p dto jobId rows in
  (ledgerUpdates (effects run) = ledgerUpdates (effects run')
   <-> length data = length data')
  /\ (length data = length data' ->
      outcome run = outcome run' /\ ledgerAfter run = ledgerAfter run').
Proof.
  intros Hf Hf' Hurl run run'. subst run run'.
  rewrite (retrieveOn_fulfilled _ _ _ _ _ _ Hf), (retrieveOn_fulfilled _ _ _ _ _ _ Hf').
  observe. rewrite Hurl. split; [split|].
  - intros Heq. injection Heq as Heq. by apply (inj pretty).
  - by intros ->.
  - by intros ->.
Qed.

(** X9: whether a request is accepted depends on the capability
    configuration, the exchange and the interval, and on nothing else: not
    on the symbol (an empty one included), the job id, the ledger, or what
    the external source and the bar store would answer. *)
Theorem acceptance_by_exchange_and_interval this this' dto dto' jobId jobId' rows rows' :
  ALPHA_PROXY_CONFIG this = ALPHA_PROXY_CONFIG this' ->
  exchange dto = exchange dto' ->
  interval dto = interval dto' ->
  accepted (retrieveStockData this dto jobId rows)
  <-> accepted (retrieveStockData this' dto' jobId' rows').
Proof.
  intros Hcfg Hex Hiv.
  rewrite !accepted_iff_listed. by rewrite Hcfg, Hex, Hiv.
Qed.

(** X10: the outcome of [retrieveStockData], case by case.  A request it
    turns down raises one of its two Errors.  An accepted request whose
    fetch works gives what the read-back gives: the row found in the store
    at that moment, or the error of the ledger when the job has no row.  An
    accepted request whose fetch is rejected raises an HttpException with
    the text of the reason and the status of the error handler when the
    reason has a text, and otherwise whatever the call of [toString] on the
    reason throws.  So a result is returned only for an accepted request
    whose fetch worked and whose row was found. *)
Theorem retrieveStockData_outcome_kinds this dto jobId rows :
  let run := retrieveStockData this dto jobId rows in
  (~ accepted run ->
   outcome run = Throw (invalidExchange dto)
   \/ outcome run = Throw (invalidInterval dto))
  /\ (accepted run ->
      match fetchOf this (pathFor ONE_DAY dto) dto with
      | Fulfilled data =>
          outcome run = answer (Ledger.find jobId (stored (ledgerAfter run)))
      | Rejected reason =>
          outcome run
          = if hasToString reason
            then Throw (HttpException (toString reason) (statusFor reason))
            else Throw (noToString reason)
      end)
  /\ (forall r, outcome run = Return r ->
      accepted run
      /\ (exists data, fetchOf this (pathFor ONE_DAY dto) dto = Fulfilled data)
      /\ Ledger.lookup jobId (stored (ledgerAfter run)) = Some (proxyJobLog r)).
Proof.
  intros run. subst run.
  destruct (accepted_dec this dto jobId rows) as [Hacc|Hrej].
  - split; [intros H; by destruct H|].
    pose proof Hacc as Hacc'.
    rewrite (retrieveStockData_accepted_run _ _ _ _ Hacc) in Hacc' |- *.
    destruct (retrieveOn_cases this (pathFor ONE_DAY dto) dto jobId rows)
      as [[data Hf]|[(e & Hf & He)|(e & Hf & He)]]; rewrite Hf.
    + rewrite (retrieveOn_fulfilled _ _ _ _ _ _ Hf) in Hacc' |- *. observe.
      split; [reflexivity|]. intros r Hr.
      split; [exact Hacc'|]. split; [eauto|].
      unfold Ledger.find in Hr.
      destruct (Ledger.lookup jobId _) as [row|]; [|discriminate Hr].
      cbn in Hr. by injection Hr as <-.
    + rewrite (retrieveOn_rejected _ _ _ _ _ _ Hf He) in Hacc' |- *. observe.
      rewrite He. split; [reflexivity|]. intros r Hr. discriminate Hr.
    + rewrite (retrieveOn_escaped _ _ _ _ _ _ Hf He) in Hacc' |- *. observe.
      rewrite He. split; [reflexivity|]. intros r Hr. discriminate Hr.
  - destruct (retrieveStockData_rejected_run _ _ _ _ Hrej) as (e & He & Hrun).
    pose proof Hrej as Hrej'. rewrite Hrun in Hrej' |- *.
    unfold turnedDown at 1 3 4. observe.
    split; [intros _; destruct He as [-> | ->]; auto|].
    split; [intros H; by destruct Hrej'|].
    intros r Hr. discriminate Hr.
Qed.

(** X12: a fetch rejected with a value that has no text (undefined, null,
    or a value whose [toString] fails) escapes the error handler.  The
    handler fails on its first line, the call of [toString]: the method
    raises what that call throws, for undefined and null the TypeError of
    the engine, and no HttpException; nothing is logged after the fetch,
    the ledger is handed no update and is not read, and the job is left as
    it was. *)
Theorem rejection_without_text_escapes this p dto jobId rows e :
  fetchOf this p dto = Rejected e ->
  hasToString e = false ->
  let run := retrieveOn this p dto jobId rows in
  outcome run = Throw (noToString e)
  /\ (e = Undefined -> outcome run = Throw (TypeError undefinedMessage))
  /\ (e = Null -> outcome run = Throw (TypeError nullMessage))
  /\ effects run
     = [Entered (pathName p) dto jobId;
        Fetched p (symbol dto) (alphaVantageExchange (exchange dto))
          (alphaVantageInterval (interval dto))]
  /\ ledgerUpdates (effects run) = []
  /\ ledgerFinds (effects run) = []
  /\ saves (effects run) = []
  /\ ledgerAfter run = rows.
Proof.
  intros Hf He run. subst run.
  rewrite (retrieveOn_escaped _ _ _ _ _ _ Hf He). observe.
  repeat split; by intros ->.
Qed.

(** X13: a fetch that works.  The run hands the ledger one update, with
    HttpStatus.OK and the message DataSize=n, n the number of bars; it hands
    the bars to the bar store once, in a chain that is not awaited; it
    reads the row of the job back once; and once the update has landed the
    ledger is the one it met with that row finalized and the rows of all
    other jobs as they were.  The update is not awaited either: the result
    is the row as the read-back finds it, the finalized one where the
    update reaches the store first and the row as it was where the
    read-back does, and the error of the ledger where the job has no row.
    None of this depends on what the bar store does: a save that fails only
    leaves a log line. *)
Theorem fetch_success_handed_over this p dto jobId rows data :
  fetchOf this p dto = Fulfilled data ->
  let run := retrieveOn this p dto jobId rows in
  let msg := "DataSize=" ++ pretty (length data) in
  ledgerUpdates (effects run)
  = [(jobId, PROXY_NAME, urlOf this p dto, HttpStatus.OK, msg)]
  /\ saves (effects run) = [(symbol dto, exchange dto, interval dto, data)]
  /\ ledgerFinds (effects run) = [jobId]
  /\ settled (ledgerAfter run)
     = Ledger.finalize jobId PROXY_NAME (urlOf this p dto) HttpStatus.OK msg
         (settled rows)
  /\ (forall j k, jobId = Some j -> k <> j ->
      settled (ledgerAfter run) !! k = settled rows !! k)
  /\ outcome run = answer (Ledger.find jobId (stored (ledgerAfter run)))
  /\ (landsFirst rows = true ->
      forall j row, jobId = Some j -> settled rows !! j = Some row ->
      outcome run
      = Return {| proxyJobLog :=
                    finalized row PROXY_NAME (urlOf this p dto) HttpStatus.OK msg |})
  /\ (landsFirst rows = false ->
      forall j row, jobId = Some j -> stored rows !! j = Some row ->
      outcome run = Return {| proxyJobLog := row |})
  /\ (Ledger.lookup jobId (stored (ledgerAfter run)) = None ->
      outcome run = Throw (ledgerInconsistency jobId))
  /\ (forall save,
      let run' := retrieveOn (withSave this save) p dto jobId rows in
      outcome run' = outcome run /\ ledgerAfter run' = ledgerAfter run)
  /\ (forall err,
      saveStockDataToDb this (symbol dto) (exchange dto) (interval dto) data
      = Rejected err ->
      In (Later (Logged LOG ("AlphaVantageService : " ++ saveName p ++ ": failed")
                   (Some err)))
         (effects run)).
Proof.
  intros Hf run msg. subst run msg.
  rewrite (retrieveOn_fulfilled _ _ _ _ _ _ Hf). observe.
  split; [reflexivity|]. split; [reflexivity|]. split; [reflexivity|].
  split; [by rewrite settled_atRead, settled_handOver|].
  split.
  { intros j k -> Hk. rewrite settled_atRead, settled_handOver.
    by apply finalize_other. }
  split; [reflexivity|].
  split.
  { intros Hl j row -> Hrow.
    rewrite stored_atRead_prompt by exact Hl. rewrite settled_handOver.
    unfold Ledger.find, Ledger.lookup, Ledger.write.
    by rewrite (lookup_finalize _ _ _ _ _ _ _ Hrow). }
  split.
  { intros Hl j row -> Hrow.
    rewrite atRead_late by exact Hl.
    unfold Ledger.find, Ledger.lookup. cbn. by rewrite Hrow. }
  split.
  { intros Hnone. unfold Ledger.find. by rewrite Hnone. }
  split.
  { intros save.
    rewrite (retrieveOn_fulfilled (withSave this save) p dto jobId rows data Hf).
    split; reflexivity. }
  intros err ->. do 4 right. left. reflexivity.
Qed.

End ServiceFacts.

(** ** Proxy health *)
Section HealthFacts.

Import Health.

Lemma Qlt_bool_iff (x y : Q) : Qlt_bool x y = true <-> (x < y)%Q.
Proof.
  unfold Qlt_bool. rewrite negb_true_iff. split.
  - intros H. apply Qnot_le_lt. intros Hle. apply Qle_bool_iff in Hle. congruence.
  - intros H. destruct (Qle_bool y x) eqn:Hb; [|done].
    apply Qle_bool_iff in Hb. exfalso. by apply (Qlt_not_le x y).
Qed.

(** The classifier picks the status whose band holds the rate. *)
Lemma classify_band (h : Q) :
  (0 <= h)%Q -> (h <= 1)%Q -> band (classify (Some h)) h.
Proof.
  intros H0 H1. unfold classify.
  destruct (Qeq_bool h 1) eqn:E1; [by apply Qeq_bool_iff in E1|].
  destruct (Qle_bool (3 # 4) h && Qlt_bool h 1) eqn:E2.
  { apply andb_true_iff in E2 as [Ha Hb].
    apply Qle_bool_iff in Ha. apply Qlt_bool_iff in Hb. by split. }
  destruct (Qle_bool (1 # 4) h && Qlt_bool h (3 # 4)) eqn:E3.
  { apply andb_true_iff in E3 as [Ha Hb].
    apply Qle_bool_iff in Ha. apply Qlt_bool_iff in Hb. by split. }
  destruct (Qle_bool (1 # 100) h && Qlt_bool h (1 # 4)) eqn:E4.
  { apply andb_true_iff in E4 as [Ha Hb].
    apply Qle_bool_iff in Ha. apply Qlt_bool_iff in Hb. by split. }
  destruct (Qlt_bool h (1 # 100)) eqn:E5.
  { by apply Qlt_bool_iff in E5. }
  exfalso.
  assert (Hn1 : ~ (h == 1)%Q) by (rewrite <- Qeq_bool_iff; congruence).
  assert (H5 : ~ (h < 1 # 100)%Q) by (rewrite <- Qlt_bool_iff; congruence).
  assert (H4 : ~ ((1 # 100 <= h)%Q /\ (h < 1 # 4)%Q)).
  { rewrite <- Qle_bool_iff, <- Qlt_bool_iff, <- andb_true_iff. congruence. }
  assert (H3 : ~ ((1 # 4 <= h)%Q /\ (h < 3 # 4)%Q)).
  { rewrite <- Qle_bool_iff, <- Qlt_bool_iff, <- andb_true_iff. congruence. }
  assert (H2 : ~ ((3 # 4 <= h)%Q /\ (h < 1)%Q)).
  { rewrite <- Qle_bool_iff, <- Qlt_bool_iff, <- andb_true_iff. congruence. }
  lra.
Qed.

(** No rate lies in two bands. *)
Lemma band_disjoint (s s' : ProxyStatus) (h : Q) :
  band s h -> band s' h -> s = s'.
Proof. destruct s, s'; simpl; intros; try reflexivity; exfalso; lra. Qed.

(** C2: on the rates from 0 to 1 the classifier is total (it never answers
    Unknown), it gives a status exactly when the rate lies in the band of
    that status, every rate lies in exactly one of the five bands, equal
    rates get equal statuses, and the bands are closed below: 0 is Eclipse,
    0.01 ThunderStorm, 0.25 Raining, 0.75 Cloudy and 1 Sunny. *)
Theorem classify_partitions (h : Q) :
  (0 <= h)%Q -> (h <= 1)%Q ->
  (forall s, classify (Some h) = s <-> band s h)
  /\ classify (Some h) <> Unknown
  /\ (exists s, band s h /\ forall s', band s' h -> s' = s)
  /\ (forall h', (h == h')%Q -> classify (Some h') = classify (Some h))
  /\ (classify (Some h) = Eclipse <-> (h < 1 # 100)%Q)
  /\ (classify (Some h) = ThunderStorm <-> (1 # 100 <= h)%Q /\ (h < 1 # 4)%Q)
  /\ (classify (Some h) = Raining <-> (1 # 4 <= h)%Q /\ (h < 3 # 4)%Q)
  /\ (classify (Some h) = Cloudy <-> (3 # 4 <= h)%Q /\ (h < 1)%Q)
  /\ (classify (Some h) = Sunny <-> (h == 1)%Q)
  /\ classify (Some 0%Q) = Eclipse
  /\ classify (Some (1 # 100)) = ThunderStorm
  /\ classify (Some (1 # 4)) = Raining
  /\ classify (Some (3 # 4)) = Cloudy
  /\ classify (Some 1%Q) = Sunny.
Proof.
  intros H0 H1.
  pose proof (classify_band h H0 H1) as Hb.
  assert (Hiff : forall s, classify (Some h) = s <-> band s h).
  { intros s. split; [by intros <- | intros Hs; by apply (band_disjoint _ _ h)]. }
  split; [exact Hiff|].
  split; [intros HU; by rewrite HU in Hb|].
  split; [exists (classify (Some h)); split; [done|];
          intros s' Hs'; by apply (band_disjoint _ _ h)|].
  split.
  { intros h' Heq. symmetry. apply Hiff.
    assert (H0' : (0 <= h')%Q) by lra. assert (H1' : (h' <= 1)%Q) by lra.
    pose proof (classify_band h' H0' H1') as Hb'.
    destruct (classify (Some h')); simpl in *; lra. }
  split; [exact (Hiff Eclipse)|].
  split; [exact (Hiff ThunderStorm)|].
  split; [exact (Hiff Raining)|].
  split; [exact (Hiff Cloudy)|].
  split; [exact (Hiff Sunny)|].
  repeat split.
Qed.

Lemma successes_le (recent : list ProxyJobLog) :
  (length (filter (fun r => succeeded r = true) recent) <= length recent)%nat.
Proof. apply length_filter. Qed.

(** The hit rate of a ledger with rows is a fraction from 0 to 1. *)
Lemma hit_rate_range (recent : list ProxyJobLog) (h : Q) :
  hit_rate recent = Some h -> (0 <= h)%Q /\ (h <= 1)%Q.
Proof.
  destruct recent as [|r rs]; [discriminate|].
  unfold hit_rate. intros [= <-].
  pose proof (successes_le (r :: rs)) as Hle.
  remember (length (filter _ (r :: rs))) as k.
  cbn [length] in *.
  unfold Qle. cbn [Qnum Qden].
  rewrite <- Pos.of_nat_succ, Zpos_P_of_succ_nat. lia.
Qed.

(** C8: an undefined hit rate is classified Unknown, and the stats of a
    provider with no ledger rows have an undefined hit rate and the status
    Unknown, not Eclipse; a provider is Unknown only when it has no rows. *)
Theorem no_attempts_unknown :
  classify None = Unknown
  /\ hit_rate [] = None
  /\ status (fetchAPIStats []) = Unknown
  /\ status (fetchAPIStats []) <> Eclipse
  /\ (forall recent, status (fetchAPIStats recent) = Unknown <-> recent = []).
Proof.
  repeat split; try done.
  - intros HU. destruct recent as [|r rs]; [done|]. exfalso.
    change (classify (hit_rate (r :: rs)) = Unknown) in HU.
    destruct (hit_rate (r :: rs)) as [h|] eqn:Hh; [|discriminate].
    destruct (hit_rate_range _ _ Hh) as [H0 H1].
    pose proof (classify_band h H0 H1) as Hb. by rewrite HU in Hb.
  - by intros ->.
Qed.

End HealthFacts.

(** ** The properties at work on the concrete provider *)

#[local] Existing Instance Demo.runtime.

Lemma nyse_not_open :
  "NYSE" ∉ supportedExchanges
             (ALPHA_PROXY_CONFIG
                (Demo.service Demo.nasdaq (Fulfilled "up") (Fulfilled [1; 2; 3])
                   (Fulfilled tt))).
Proof.
  intros H. apply (bool_decide_eq_true_2 _) in H. vm_compute in H. discriminate H.
Defined.

Lemma scenarioA_accepted :
  accepted (Demo.retrieve Demo.nasdaq (Fulfilled [1; 2; 3]) (Fulfilled tt)
              Demo.aapl_daily (Some 1)).
Proof. exists Daily. vm_compute. reflexivity. Defined.

(** C1 at the request of scenario A: NASDAQ is open and the interval is a
    day, so the request enters a fetch path. *)
Lemma retrieveStockData_accepts_iff_witness :
  accepted (Demo.retrieve Demo.nasdaq (Fulfilled [1; 2; 3]) (Fulfilled tt)
              Demo.aapl_daily (Some 1)).
Proof.
  apply (retrieveStockData_accepts_iff Demo.ONE_DAY Demo.alphaVantageExchange
           Demo.alphaVantageInterval
           (Demo.service Demo.nasdaq (Fulfilled "up") (Fulfilled [1; 2; 3])
              (Fulfilled tt))
           Demo.aapl_daily (Some 1) Demo.created).
  split.
  - apply (bool_decide_eq_true_1 _). vm_compute. reflexivity.
  - left. reflexivity.
Defined.

(** C1 as the spec words it fails on a descriptor that declares no daily
    bars: the daily request is routed all the same, while the admissibility
    test of the spec says no. *)
Lemma daily_flag_not_consulted :
  ~ (accepted Demo.undeclaredDaily <->
     is_admissible Demo.ONE_DAY Demo.aapl_daily Demo.nasdaq_intraday_only = true).
Proof.
  intros [Hacc _].
  assert (H : accepted Demo.undeclaredDaily) by (exists Daily; vm_compute; reflexivity).
  apply Hacc in H. vm_compute in H. discriminate H.
Qed.

(** C3 at scenario B. *)
Lemma retrieveStockData_unsupported_exchange_witness :
  (exchange Demo.nyse_daily
     ∉ supportedExchanges
         (ALPHA_PROXY_CONFIG
            (Demo.service Demo.nasdaq (Fulfilled "up") (Fulfilled [1; 2; 3])
               (Fulfilled tt))))
  /\ outcome Demo.scenarioB = Throw (invalidExchange Demo.nyse_daily)
  /\ ledgerAfter Demo.scenarioB = Demo.created.
Proof.
  split; [exact nyse_not_open|].
  destruct (retrieveStockData_unsupported_exchange Demo.ONE_DAY
              Demo.alphaVantageExchange Demo.alphaVantageInterval
              (Demo.service Demo.nasdaq (Fulfilled "up") (Fulfilled [1; 2; 3])
                 (Fulfilled tt))
              Demo.nyse_daily (Some 1) Demo.created nyse_not_open)
    as (Hout & _ & _ & Hrows & _).
  split; [exact Hout | exact Hrows].
Defined.

(** C3 as the spec words it fails at scenario B: no HttpException with a 4xx
    status is raised and the ledger row of the job is not finalized. *)
Lemma unsupported_exchange_not_finalized :
  ~ ((exists r s, outcome Demo.scenarioB = Throw (HttpException r s) /\ is4xx s)
     /\ (exists n u s m,
           In (Some 1, n, u, s, m) (ledgerUpdates (effects Demo.scenarioB))
           /\ is4xx s)
     /\ fetches (effects Demo.scenarioB) = []).
Proof.
  intros ((r & s & Hout & _) & _). vm_compute in Hout. discriminate Hout.
Qed.

(** C10 at an unsupported exchange with an interval that is neither a day
    nor a listed intraday interval. *)
Lemma retrieveStockData_exchange_first_witness :
  (exchange Demo.nyse_odd
     ∉ supportedExchanges
         (ALPHA_PROXY_CONFIG
            (Demo.service Demo.nasdaq (Fulfilled "up") (Fulfilled [1; 2; 3])
               (Fulfilled tt))))
  /\ outcome (Demo.retrieve Demo.nasdaq (Fulfilled [1; 2; 3]) (Fulfilled tt)
                (withInterval Demo.nyse_odd 7) (Some 1))
     = Throw (invalidExchange Demo.nyse_odd).
Proof.
  split; [exact nyse_not_open|].
  apply (retrieveStockData_exchange_first Demo.ONE_DAY
           Demo.alphaVantageExchange Demo.alphaVantageInterval
           (Demo.service Demo.nasdaq (Fulfilled "up") (Fulfilled [1; 2; 3])
              (Fulfilled tt))
           Demo.nyse_odd (Some 1) Demo.created nyse_not_open 7).
Defined.

(** C4 on the request of scenario A, which is accepted and whose fetch
    works: one ledger update, for the job and the URL of the request. *)
Lemma one_ledger_update_per_fetch_witness :
  accepted (Demo.retrieve Demo.nasdaq (Fulfilled [1; 2; 3]) (Fulfilled tt)
              Demo.aapl_daily (Some 1))
  /\ answers (fetchOf Demo.alphaVantageExchange Demo.alphaVantageInterval
                (Demo.service Demo.nasdaq (Fulfilled "up") (Fulfilled [1; 2; 3])
                   (Fulfilled tt))
                (pathFor Demo.ONE_DAY Demo.aapl_daily) Demo.aapl_daily)
  /\ exists s m,
       ledgerUpdates
         (effects (Demo.retrieve Demo.nasdaq (Fulfilled [1; 2; 3]) (Fulfilled tt)
                     Demo.aapl_daily (Some 1)))
       = [(Some 1, PROXY_NAME, "daily/AAPL/NASDAQ/1440", s, m)].
Proof.
  split; [exact scenarioA_accepted|]. split; [exact I|].
  apply (one_ledger_update_per_fetch Demo.ONE_DAY Demo.alphaVantageExchange
           Demo.alphaVantageInterval
           (Demo.service Demo.nasdaq (Fulfilled "up") (Fulfilled [1; 2; 3])
              (Fulfilled tt))
           Demo.aapl_daily (Some 1) Demo.created);
    [exact scenarioA_accepted | exact I].
Defined.

(** C4 as the spec words it fails on a rejected request: the run makes no
    ledger update at all. *)
Lemma rejected_request_not_finalized :
  length (ledgerUpdates (effects Demo.oddInterval)) <> 1%nat.
Proof. vm_compute. discriminate. Qed.

(** C5 at a time-out of the external source that is rejected as a string:
    a provider error. *)
Lemma fetch_failure_classified_witness :
  fetchOf Demo.alphaVantageExchange Demo.alphaVantageInterval
    (Demo.service Demo.nasdaq (Fulfilled "up") (Rejected (Foreign "ETIMEDOUT"))
       (Fulfilled tt))
    Daily Demo.aapl_daily
  = Rejected (Foreign "ETIMEDOUT")
  /\ hasToString (Foreign "ETIMEDOUT") = true
  /\ outcome
       (retrieveDailyData Demo.alphaVantageExchange Demo.alphaVantageInterval
          (Demo.service Demo.nasdaq (Fulfilled "up")
             (Rejected (Foreign "ETIMEDOUT")) (Fulfilled tt))
          Demo.aapl_daily (Some 1) Demo.created)
     = Throw (HttpException "ETIMEDOUT" HttpStatus.INTERNAL_SERVER_ERROR).
Proof.
  split; [reflexivity|]. split; [reflexivity|].
  apply (fetch_failure_classified Demo.alphaVantageExchange
           Demo.alphaVantageInterval
           (Demo.service Demo.nasdaq (Fulfilled "up")
              (Rejected (Foreign "ETIMEDOUT")) (Fulfilled tt))
           Daily Demo.aapl_daily (Some 1) Demo.created (Foreign "ETIMEDOUT")
           eq_refl eq_refl).
Defined.

(** What the daily method raises when its fetch is rejected with a value
    that has a text. *)
Lemma failed_outcome (R : Runtime) (e : Thrown) :
  hasToString e = true ->
  outcome (Examples.failed R e) = Throw (HttpException (toString e) (statusFor e)).
Proof.
  intros He. unfold Examples.failed. rewrite <- retrieveOn_Daily.
  by rewrite (retrieveOn_rejected Demo.alphaVantageExchange Demo.alphaVantageInterval
                (Examples.failing e) Daily Demo.aapl_daily (Some 1) Demo.created e
                eq_refl He).
Qed.

(** C5 as the spec words it fails: the class is not a matter of who is to
    blame.  The same time-out, when the external source rejects with an
    Error, is filed as a client error, under every runtime; the source
    turning the symbol down, when it rejects with its message as a string,
    is filed as a provider error; and no runtime files an upstream
    HttpException that carries a 4xx status as a client error and the same
    one carrying a 5xx status as a provider error, since the status it
    carries is never looked at. *)
Lemma classification_by_text_not_by_blame :
  (forall R : Runtime,
      outcome (Examples.failed R (Error "connect ETIMEDOUT"))
      = Throw (HttpException "Error: connect ETIMEDOUT" HttpStatus.BAD_REQUEST)
      /\ outcome (Examples.failed R (Foreign "Invalid API call: unknown symbol"))
         = Throw (HttpException "Invalid API call: unknown symbol"
                    HttpStatus.INTERNAL_SERVER_ERROR))
  /\ ~ (exists R : Runtime,
          (exists t s,
              outcome (Examples.failed R (HttpException "Request failed" 400))
              = Throw (HttpException t s) /\ is4xx s)
          /\ (exists t s,
                 outcome (Examples.failed R (HttpException "Request failed" 503))
                 = Throw (HttpException t s) /\ is5xx s)).
Proof.
  split.
  - intros R. split; reflexivity.
  - intros (R & (t & s & H4 & Hs4) & (t' & s' & H5 & Hs5)).
    rewrite failed_outcome in H4, H5 by reflexivity.
    injection H4 as _ <-. injection H5 as _ <-.
    change (statusFor (HttpException "Request failed" 503))
      with (statusFor (HttpException "Request failed" 400)) in Hs5.
    unfold is4xx, is5xx in *. lia.
Qed.

(** C6 fails on the code in scenario E when the ledger update, which is
    not awaited, reaches the store after the read-back.  The fetch works
    and the bar store fails; the failure of the save leaves its log line
    and the update with HttpStatus.OK and DataSize=3 is handed over, but
    the result returned is the row of the job as it was created, with no
    success code, while the ledger ends with the finalized row.  Where the
    update reaches the store first the result is the finalized row. *)
Theorem save_failure_result_not_finalized :
  let run := Examples.saveFailedLate in
  ledgerUpdates (effects run)
  = [(Some 1, "AlphaVantage", "daily/AAPL/NASDAQ/1440", HttpStatus.OK, "DataSize=3")]
  /\ In (Later (Logged LOG "AlphaVantageService : saveDailyDataToDb: failed"
                  (Some (Foreign "db down"))))
        (effects run)
  /\ outcome run = Return {| proxyJobLog := Demo.row1 |}
  /\ status_code Demo.row1 <> HttpStatus.OK
  /\ settled (ledgerAfter run) !! 1
     = Some (finalized Demo.row1 "AlphaVantage" "daily/AAPL/NASDAQ/1440"
               HttpStatus.OK "DataSize=3")
  /\ outcome
       (retrieveDailyData Demo.alphaVantageExchange Demo.alphaVantageInterval
          (Demo.service Demo.nasdaq (Fulfilled "up") (Fulfilled [1; 2; 3])
             (Rejected (Foreign "db down")))
          Demo.aapl_daily (Some 1) Demo.created)
     = Return {| proxyJobLog :=
                   finalized Demo.row1 "AlphaVantage" "daily/AAPL/NASDAQ/1440"
                     HttpStatus.OK "DataSize=3" |}.
Proof.
  intros run. subst run.
  split; [reflexivity|].
  split; [do 4 right; left; reflexivity|].
  split; [reflexivity|].
  split; [discriminate|].
  split; reflexivity.
Qed.

(** C7 fails on the code when the ledger update, which is not awaited,
    reaches the store after the read-back: fetch and save work, the row of
    the job is read back once, and the answer returned is the row as it was
    created, which is not the row the ledger holds once the update has
    landed, finalized with HttpStatus.OK and DataSize=3. *)
Theorem read_back_may_miss_update :
  let run := Examples.readLate in
  ledgerFinds (effects run) = [Some 1]
  /\ (exists answered,
         outcome run = Return answered
         /\ Some (proxyJobLog answered) <> settled (ledgerAfter run) !! 1
         /\ status_code (proxyJobLog answered) = 0
         /\ message (proxyJobLog answered) = "")
  /\ (exists row,
         settled (ledgerAfter run) !! 1 = Some row
         /\ status_code row = HttpStatus.OK
         /\ message row = "DataSize=3").
Proof.
  intros run. subst run.
  split; [reflexivity|]. split.
  - exists {| proxyJobLog := Demo.row1 |}.
    split; [reflexivity|]. split; [|split; reflexivity].
    intros H. vm_compute in H. discriminate H.
  - eexists. split; [vm_compute; reflexivity|]. split; reflexivity.
Qed.

(** C9 as the spec words it fails when the health check of the external
    source fails: the ping raises the error of the check. *)
Lemma pingProxyHealth_raises :
  ~ (exists report,
        outcome (pingProxyHealth Demo.unreachable Demo.created) = Return report).
Proof. intros [report H]. vm_compute in H. discriminate H. Qed.

(** C2 at the boundary 0.75, which belongs to Cloudy. *)
Lemma classify_partitions_witness :
  (0 <= 3 # 4)%Q /\ (3 # 4 <= 1)%Q
  /\ Health.classify (Some (3 # 4)) <> Health.Unknown
  /\ (Health.classify (Some (3 # 4)) = Health.Cloudy
      <-> (3 # 4 <= 3 # 4)%Q /\ (3 # 4 < 1)%Q).
Proof.
  assert (H0 : (0 <= 3 # 4)%Q) by (unfold Qle; simpl; lia).
  assert (H1 : (3 # 4 <= 1)%Q) by (unfold Qle; simpl; lia).
  destruct (classify_partitions (3 # 4) H0 H1)
    as (_ & Hu & _ & _ & _ & _ & _ & Hc & _).
  split; [exact H0|]. split; [exact H1|]. split; [exact Hu | exact Hc].
Defined.

(** ** Construction *)
Section ConstructionFacts.

(** X11: each constructor reads the key of its own provider and no other.
    The key of a provider is what the configuration holds under the key
    name of that provider, undefined when nothing is set (construction does
    not fail); setting it is seen by that provider and leaves the other one
    as it was.  The two providers differ in name and in key name, and the
    name AlphaVantage is constructed with is the one its ledger updates
    carry. *)
Theorem constructors_read_their_own_key (configService : gmap string string) :
  let av := Construction.AlphaVantageService configService in
  let ms := Construction.MarketStackService configService in
  let avKey := Construction.API_KEY_NAME av in
  let msKey := Construction.API_KEY_NAME ms in
  (forall v,
      Construction.API_KEY
        (Construction.AlphaVantageService (<[avKey := v]> configService)) = Some v
      /\ Construction.API_KEY
           (Construction.MarketStackService (<[avKey := v]> configService))
         = Construction.API_KEY ms)
  /\ (forall v,
      Construction.API_KEY
        (Construction.MarketStackService (<[msKey := v]> configService)) = Some v
      /\ Construction.API_KEY
           (Construction.AlphaVantageService (<[msKey := v]> configService))
         = Construction.API_KEY av)
  /\ (Construction.API_KEY av = None <-> avKey ∉ dom configService)
  /\ (Construction.API_KEY ms = None <-> msKey ∉ dom configService)
  /\ avKey <> msKey
  /\ Construction.PROXY_NAME av <> Construction.PROXY_NAME ms
  /\ Construction.PROXY_NAME av = PROXY_NAME.
Proof.
  intros av ms avKey msKey. subst av ms avKey msKey.
  unfold Construction.AlphaVantageService, Construction.MarketStackService,
    Construction.get.
  cbn [Construction.API_KEY Construction.API_KEY_NAME Construction.PROXY_NAME].
  split; [intros v; split; [apply lookup_insert_eq | by apply lookup_insert_ne]|].
  split; [intros v; split; [apply lookup_insert_eq | by apply lookup_insert_ne]|].
  split; [by rewrite not_elem_of_dom|].
  split; [by rewrite not_elem_of_dom|].
  repeat split; discriminate.
Qed.

End ConstructionFacts.

(** ** The further properties at work on concrete providers *)

Lemma nasdaq_open (d : CapabilityDescriptor) health bars saved :
  exchanges d = ["NASDAQ"] ->
  "NASDAQ" ∈ supportedExchanges (ALPHA_PROXY_CONFIG (Demo.service d health bars saved)).
Proof. intros Hd. unfold supportedExchanges. cbn. rewrite Hd. apply list_elem_of_here. Defined.



(** X2 at the service whose two lists are undefined. *)
Lemma undefined_capability_lists_witness :
  openExchanges (ALPHA_PROXY_CONFIG Examples.bare) = None
  /\ intraDayIntervals (ALPHA_PROXY_CONFIG Examples.bare) = None
  /\ outcome (retrieveStockData Demo.ONE_DAY Demo.alphaVantageExchange
                Demo.alphaVantageInterval Examples.bare Demo.aapl_daily (Some 1)
                Demo.created)
     = Throw (invalidExchange Demo.aapl_daily).
Proof.
  split; [reflexivity|]. split; [reflexivity|].
  apply (undefined_capability_lists Demo.ONE_DAY Demo.alphaVantageExchange
           Demo.alphaVantageInterval Examples.bare Demo.aapl_daily (Some 1)
           Demo.created).
  reflexivity.
Defined.

(** X3 at a daily request to a provider that also lists the day among its
    intraday intervals. *)
Lemma retrieveStockData_delegates_witness :
  exchange Demo.aapl_daily
    ∈ supportedExchanges
        (ALPHA_PROXY_CONFIG
           (Demo.service Examples.dayListedTwice (Fulfilled "up")
              (Fulfilled [1; 2; 3]) (Fulfilled tt)))
  /\ interval Demo.aapl_daily = Demo.ONE_DAY
  /\ interval Demo.aapl_daily
       ∈ supportedIntraDay
           (ALPHA_PROXY_CONFIG
              (Demo.service Examples.dayListedTwice (Fulfilled "up")
                 (Fulfilled [1; 2; 3]) (Fulfilled tt)))
  /\ fetches
       (effects
          (Demo.retrieve Examples.dayListedTwice (Fulfilled [1; 2; 3]) (Fulfilled tt)
             Demo.aapl_daily (Some 1)))
     = [Daily].
Proof.
  assert (H1 : exchange Demo.aapl_daily
               ∈ supportedExchanges
                   (ALPHA_PROXY_CONFIG
                      (Demo.service Examples.dayListedTwice (Fulfilled "up")
                         (Fulfilled [1; 2; 3]) (Fulfilled tt))))
    by (by apply nasdaq_open).
  assert (H3 : interval Demo.aapl_daily
               ∈ supportedIntraDay
                   (ALPHA_PROXY_CONFIG
                      (Demo.service Examples.dayListedTwice (Fulfilled "up")
                         (Fulfilled [1; 2; 3]) (Fulfilled tt)))).
  { apply (bool_decide_eq_true_1 _). vm_compute. reflexivity. }
  split; [exact H1|]. split; [reflexivity|]. split; [exact H3|].
  apply (retrieveStockData_delegates Demo.ONE_DAY Demo.alphaVantageExchange
           Demo.alphaVantageInterval
           (Demo.service Examples.dayListedTwice (Fulfilled "up")
              (Fulfilled [1; 2; 3]) (Fulfilled tt))
           Demo.aapl_daily (Some 1) Demo.created); [exact H1 | reflexivity | exact H3].
Defined.

(** X6 at a fetch that times out, and at one that works. *)
Lemma saves_only_fetched_bars_witness :
  fetchOf Demo.alphaVantageExchange Demo.alphaVantageInterval
    (Examples.failing (Foreign "ETIMEDOUT")) Daily Demo.aapl_daily
  = Rejected (Foreign "ETIMEDOUT")
  /\ saves
       (effects
          (retrieveDailyData Demo.alphaVantageExchange Demo.alphaVantageInterval
             (Examples.failing (Foreign "ETIMEDOUT")) Demo.aapl_daily (Some 1)
             Demo.created))
     = []
  /\ In ("AAPL", "NASDAQ", 1440, [1; 2; 3])
       (saves
          (effects
             (retrieveStockData Demo.ONE_DAY Demo.alphaVantageExchange
                Demo.alphaVantageInterval Examples.working Demo.aapl_daily (Some 1)
                Demo.created)))
  /\ accepted
       (retrieveStockData Demo.ONE_DAY Demo.alphaVantageExchange
          Demo.alphaVantageInterval Examples.working Demo.aapl_daily (Some 1)
          Demo.created).
Proof.
  assert (Hin : In ("AAPL", "NASDAQ", 1440, [1; 2; 3])
                  (saves
                     (effects
                        (retrieveStockData Demo.ONE_DAY Demo.alphaVantageExchange
                           Demo.alphaVantageInterval Examples.working Demo.aapl_daily
                           (Some 1) Demo.created))))
    by (vm_compute; left; reflexivity).
  split; [reflexivity|].
  split.
  - exact (proj1 (proj1 (saves_only_fetched_bars Demo.ONE_DAY
                            Demo.alphaVantageExchange Demo.alphaVantageInterval
                            (Examples.failing (Foreign "ETIMEDOUT"))
                            Demo.aapl_daily (Some 1) Demo.created)
                   Daily (Foreign "ETIMEDOUT") eq_refl)).
  - split; [exact Hin|].
    exact (proj1 (proj2 (saves_only_fetched_bars Demo.ONE_DAY
                           Demo.alphaVantageExchange Demo.alphaVantageInterval
                           Examples.working Demo.aapl_daily (Some 1) Demo.created)
                   _ Hin)).
Defined.

(** X7 at an upstream HttpException with a 4xx status: under a framework
    that prints it with its class name it comes out as
    INTERNAL_SERVER_ERROR, under one that prints it as an Error it comes
    out as BAD_REQUEST. *)
Lemma classification_by_kind_witness :
  fetchOf Demo.alphaVantageExchange Demo.alphaVantageInterval
    (Examples.failing (HttpException "Not Found" 404)) Daily Demo.aapl_daily
  = Rejected (HttpException "Not Found" 404)
  /\ hasToString (HttpException "Not Found" 404) = true
  /\ outcome
       (retrieveDailyData Demo.alphaVantageExchange Demo.alphaVantageInterval
          (Examples.failing (HttpException "Not Found" 404)) Demo.aapl_daily
          (Some 1) Demo.created)
     = Throw (HttpException "HttpException: Not Found" 500)
  /\ outcome
       (retrieveDailyData (RT := Examples.runtime7) Demo.alphaVantageExchange
          Demo.alphaVantageInterval
          (Examples.failing (HttpException "Not Found" 404)) Demo.aapl_daily
          (Some 1) Demo.created)
     = Throw (HttpException "Error: Not Found" 400).
Proof.
  split; [reflexivity|]. split; [reflexivity|]. split.
  - exact (proj1 (classification_by_kind Demo.alphaVantageExchange
                    Demo.alphaVantageInterval
                    (Examples.failing (HttpException "Not Found" 404)) Daily
                    Demo.aapl_daily (Some 1) Demo.created
                    (HttpException "Not Found" 404) eq_refl eq_refl)).
  - exact (proj1 (classification_by_kind (RT := Examples.runtime7)
                    Demo.alphaVantageExchange Demo.alphaVantageInterval
                    (Examples.failing (HttpException "Not Found" 404)) Daily
                    Demo.aapl_daily (Some 1) Demo.created
                    (HttpException "Not Found" 404) eq_refl eq_refl)).
Defined.

(** X8 at two fetches of three bars each. *)
Lemma data_size_read_back_witness :
  fetchOf Demo.alphaVantageExchange Demo.alphaVantageInterval Examples.working
    Daily Demo.aapl_daily
  = Fulfilled [1; 2; 3]
  /\ fetchOf Demo.alphaVantageExchange Demo.alphaVantageInterval
       (Demo.service Demo.nasdaq (Fulfilled "up") (Fulfilled [4; 5; 6]) (Fulfilled tt))
       Daily Demo.aapl_daily
     = Fulfilled [4; 5; 6]
  /\ ledgerUpdates
       (effects
          (retrieveDailyData Demo.alphaVantageExchange Demo.alphaVantageInterval
             Examples.working Demo.aapl_daily (Some 1) Demo.created))
     = ledgerUpdates
         (effects
            (retrieveDailyData Demo.alphaVantageExchange Demo.alphaVantageInterval
               (Demo.service Demo.nasdaq (Fulfilled "up") (Fulfilled [4; 5; 6])
                  (Fulfilled tt))
               Demo.aapl_daily (Some 1) Demo.created)).
Proof.
  split; [reflexivity|]. split; [reflexivity|].
  apply (data_size_read_back Demo.alphaVantageExchange Demo.alphaVantageInterval
           Examples.working
           (Demo.service Demo.nasdaq (Fulfilled "up") (Fulfilled [4; 5; 6])
              (Fulfilled tt))
           Daily Demo.aapl_daily (Some 1) Demo.created [1; 2; 3] [4; 5; 6]
           eq_refl eq_refl eq_refl).
  reflexivity.
Defined.

(** X9 at a request with an empty symbol and no job id: accepted like the
    request of scenario A. *)
Lemma acceptance_by_exchange_and_interval_witness :
  accepted
    (retrieveStockData Demo.ONE_DAY Demo.alphaVantageExchange
       Demo.alphaVantageInterval Examples.working
       {| symbol := ""; exchange := "NASDAQ"; interval := Demo.ONE_DAY |} None ∅).
Proof.
  apply (acceptance_by_exchange_and_interval Demo.ONE_DAY Demo.alphaVantageExchange
           Demo.alphaVantageInterval Examples.working Examples.working
           Demo.aapl_daily
           {| symbol := ""; exchange := "NASDAQ"; interval := Demo.ONE_DAY |}
           (Some 1) None Demo.created ∅ eq_refl eq_refl eq_refl).
  exact scenarioA_accepted.
Defined.

(** X12 at a fetch rejected with undefined: the TypeError of the engine
    comes out, and the ledger is handed nothing. *)
Lemma rejection_without_text_escapes_witness :
  fetchOf Demo.alphaVantageExchange Demo.alphaVantageInterval
    (Examples.failing Undefined) Daily Demo.aapl_daily
  = Rejected Undefined
  /\ hasToString Undefined = false
  /\ outcome
       (retrieveDailyData Demo.alphaVantageExchange Demo.alphaVantageInterval
          (Examples.failing Undefined) Demo.aapl_daily (Some 1) Demo.created)
     = Throw (TypeError "Cannot read properties of undefined (reading 'toString')")
  /\ ledgerUpdates
       (effects
          (retrieveDailyData Demo.alphaVantageExchange Demo.alphaVantageInterval
             (Examples.failing Undefined) Demo.aapl_daily (Some 1) Demo.created))
     = [].
Proof.
  split; [reflexivity|]. split; [reflexivity|].
  destruct (rejection_without_text_escapes Demo.alphaVantageExchange
              Demo.alphaVantageInterval (Examples.failing Undefined) Daily
              Demo.aapl_daily (Some 1) Demo.created Undefined eq_refl eq_refl)
    as (Hout & _ & _ & _ & Hupd & _).
  split; [exact Hout | exact Hupd].
Defined.

(** X13 at scenario E, the bar store failing, where the update reaches the
    store before the read-back: the result is the finalized row. *)
Lemma fetch_success_handed_over_witness :
  fetchOf Demo.alphaVantageExchange Demo.alphaVantageInterval
    (Demo.service Demo.nasdaq (Fulfilled "up") (Fulfilled [1; 2; 3])
       (Rejected (Foreign "db down")))
    Daily Demo.aapl_daily
  = Fulfilled [1; 2; 3]
  /\ ledgerUpdates
       (effects
          (retrieveDailyData Demo.alphaVantageExchange Demo.alphaVantageInterval
             (Demo.service Demo.nasdaq (Fulfilled "up") (Fulfilled [1; 2; 3])
                (Rejected (Foreign "db down")))
             Demo.aapl_daily (Some 1) Demo.created))
     = [(Some 1, "AlphaVantage", "daily/AAPL/NASDAQ/1440", 200, "DataSize=3")]
  /\ outcome
       (retrieveDailyData Demo.alphaVantageExchange Demo.alphaVantageInterval
          (Demo.service Demo.nasdaq (Fulfilled "up") (Fulfilled [1; 2; 3])
             (Rejected (Foreign "db down")))
          Demo.aapl_daily (Some 1) Demo.created)
     = Return {| proxyJobLog :=
                   finalized Demo.row1 "AlphaVantage" "daily/AAPL/NASDAQ/1440" 200
                     "DataSize=3" |}.
Proof.
  split; [reflexivity|].
  destruct (fetch_success_handed_over Demo.alphaVantageExchange
              Demo.alphaVantageInterval
              (Demo.service Demo.nasdaq (Fulfilled "up") (Fulfilled [1; 2; 3])
                 (Rejected (Foreign "db down")))
              Daily Demo.aapl_daily (Some 1) Demo.created [1; 2; 3] eq_refl)
    as (Hupd & _ & _ & _ & _ & _ & Hprompt & _).
  split; [exact Hupd|].
  exact (Hprompt eq_refl 1 Demo.row1 eq_refl eq_refl).
Defined.
